(** * hrtracker-suite: the decode / transform / consume pipeline

    A shallow embedding of [lib/utils.py], [lib/types.py],
    [lib/transformers.py], [lib/consumers.py] and the plaintext half of
    [lib/producers.py], followed by the properties of the pipeline.

    Conventions of the embedding.
    - A Python [int] is a [Z].  A finite Python [float] is [PFloat q],
      [q] the rational it denotes.  Outside the scoring code the arithmetic
      on numbers ([num_add], [num_sub], the quotient of the plaintext
      decoder) is exact: this is what Python computes on ints and wherever
      the float result needs no rounding, and the properties that depend on
      such a result are stated for those cases.
    - The scoring code is embedded twice: in [consumers] with exact
      arithmetic, for the comparison of two scores, and in [scoring] with
      IEEE 754 binary64 arithmetic, every operation rounded as Python
      rounds it, for the value of a score.
    - [bytes] and ASCII-only [str] are [string] (one [ascii] per byte); a
      decoded text line is kept as its UTF-8 bytes.
    - An exception is a value of [Exn]; code that may raise returns a
      [result].
    - A generator is the finite list of items it still has to yield
      together with the way it ends ([Gen]); a generator function that is
      being run is a frame that [next] advances by one item. *)

From Stdlib Require Import ZArith QArith Qround List String Ascii Bool.
From Stdlib Require Import SpecFloat.
From Stdlib Require Import Lia Lqa.
From Stdlib Require Import DecimalString DecimalPos DecimalN.
Import ListNotations.

Local Open Scope string_scope.
Local Open Scope list_scope.
Local Open Scope Z_scope.

(** ** Python values, truthiness and exceptions *)

Inductive num : Type :=
| PInt (z : Z)
| PFloat (q : Q).

Inductive value : Type :=
| VNone
| VNum (n : num)
| VStr (s : string).

Inductive Exn : Type :=
| LookupError (msg : string)
| ValueError
| TypeError
| IndexError
| OverflowError.

Inductive result (A : Type) : Type :=
| Ok (a : A)
| Raise (e : Exn).

Arguments Ok {A} a.
Arguments Raise {A} e.

Definition bind {A B : Type} (r : result A) (k : A -> result B) : result B :=
  match r with
  | Ok a => k a
  | Raise e => Raise e
  end.

Notation "x <- r ;; k" := (bind r (fun x => k))
  (at level 61, r at next level, right associativity).

Definition to_Q (n : num) : Q :=
  match n with
  | PInt z => inject_Z z
  | PFloat q => q
  end.

Definition Qzero (q : Q) : bool := (Qnum q =? 0)%Z.

(** [bool(x)]: [None], zero and the empty string are falsy. *)
Definition num_truthy (n : num) : bool :=
  match n with
  | PInt z => negb (z =? 0)
  | PFloat q => negb (Qzero q)
  end.

Definition truthy (v : value) : bool :=
  match v with
  | VNone => false
  | VNum n => num_truthy n
  | VStr s => negb (String.eqb s EmptyString)
  end.

(** [a >= b], [a + b] and [a - b] on numbers: two ints stay an int, any
    float makes the result a float, here the exact sum or difference. *)
Definition num_ge (a b : num) : bool := Qle_bool (to_Q b) (to_Q a).

Definition num_add (a b : num) : num :=
  match a, b with
  | PInt x, PInt y => PInt (x + y)
  | _, _ => PFloat (to_Q a + to_Q b)
  end.

Definition num_sub (a b : num) : num :=
  match a, b with
  | PInt x, PInt y => PInt (x - y)
  | _, _ => PFloat (to_Q a - to_Q b)
  end.

(** Python's [==] on numbers compares the numeric values. *)
Definition num_eq (a b : num) : Prop := to_Q a == to_Q b.

(** ** Builtins: [str], [int], [round] *)

(** [str(z)] for an int: a minus sign for a negative number, then the
    decimal digits of the magnitude. *)
Definition str_int (z : Z) : string :=
  ((if (z <? 0)%Z then "-" else EmptyString)
   ++ NilEmpty.string_of_uint (N.to_uint (Z.abs_N z)))%string.

Definition digit_char (d : Z) : ascii := ascii_of_nat (48 + Z.to_nat d).

(** The digits after the point: at least one, then as many as the value
    has, up to [fuel]. *)
Fixpoint frac_digits (fuel : nat) (r d : Z) : string :=
  match fuel with
  | O => EmptyString
  | S k =>
      let r10 := r * 10 in
      String (digit_char (r10 / d))
        (if r10 mod d =? 0 then EmptyString
         else frac_digits k (r10 mod d) d)
  end.

(** [str(x)] for a float, in positional notation: the integer part, a
    point and the fractional digits ([1700000000.0], [0.25]).  This is what
    Python prints for a float whose shortest decimal form is exact and
    whose magnitude is below 1e16, such as the quotients [n / 1000] the
    plaintext decoder produces. *)
Definition repr_float (q : Q) : string :=
  let n := Qnum q in
  let d := Z.pos (Qden q) in
  let a := Z.abs n in
  ((if (n <? 0)%Z then "-" else EmptyString) ++ str_int (a / d)%Z ++ "."
   ++ frac_digits 17 (a mod d)%Z d)%string.

Definition str_num (n : num) : string :=
  match n with
  | PInt z => str_int z
  | PFloat q => repr_float q
  end.

Definition str_value (v : value) : string :=
  match v with
  | VNone => "None"
  | VNum n => str_num n
  | VStr s => s
  end.

Definition nl : string := String (ascii_of_nat 10) EmptyString.

(** ASCII white space as [str.strip] and [int] see it. *)
Definition is_space (c : ascii) : bool :=
  let n := nat_of_ascii c in
  ((9 <=? n) && (n <=? 13) || (28 <=? n) && (n <=? 32))%nat.

Definition is_digit (c : ascii) : bool :=
  let n := nat_of_ascii c in ((48 <=? n) && (n <=? 57))%nat.

(** The characters numbers are printed with. *)
Definition number_char (c : ascii) : bool :=
  is_digit c || Ascii.eqb c "-" || Ascii.eqb c ".".

Fixpoint drop_space (l : list ascii) : list ascii :=
  match l with
  | c :: r => if is_space c then drop_space r else l
  | [] => []
  end.

Definition strip (l : list ascii) : list ascii :=
  rev (drop_space (rev (drop_space l))).

(** The digits of an integer literal: at least one digit, single
    underscores allowed between digits. *)
Fixpoint ungroup (after_digit : bool) (l : list ascii) : option (list ascii) :=
  match l with
  | [] => if after_digit then Some [] else None
  | c :: r =>
      if is_digit c then option_map (cons c) (ungroup true r)
      else if Ascii.eqb c "_" && after_digit then ungroup false r
      else None
  end.

Definition digit_value (c : ascii) : Z := Z.of_nat (nat_of_ascii c) - 48.

Definition int_digits (l : list ascii) : result Z :=
  match ungroup false l with
  | Some ds => Ok (fold_left (fun acc c => acc * 10 + digit_value c) ds 0)
  | None => Raise ValueError
  end.

Definition int_signed (l : list ascii) : result Z :=
  match l with
  | c :: r =>
      if Ascii.eqb c "-" then z <- int_digits r ;; Ok (- z)
      else if Ascii.eqb c "+" then int_digits r
      else int_digits l
  | [] => int_digits []
  end.

(** [int(s)] for a string, base 10: surrounding white space, an optional
    sign, digits.  Digits and spaces outside ASCII are not recognised. *)
Definition py_int (s : string) : result Z :=
  int_signed (strip (list_ascii_of_string s)).

(** [int(v)]: a float is truncated toward zero. *)
Definition int_of_value (v : value) : result Z :=
  match v with
  | VNum (PInt z) => Ok z
  | VNum (PFloat q) => Ok (Z.quot (Qnum q) (Z.pos (Qden q)))
  | VStr s => py_int s
  | VNone => Raise TypeError
  end.

(** [round(x)] for a float: to the nearest integer, a tie to the even
    one. *)
Definition py_round (q : Q) : Z :=
  let f := Qfloor q in
  match ((q - inject_Z f) ?= (1 # 2))%Q with
  | Lt => f
  | Gt => f + 1
  | Eq => if Z.even f then f else f + 1
  end.

Definition Qlt_b (a b : Q) : bool := negb (Qle_bool b a).

(** [a - b] on attribute values. *)
Definition value_sub (a b : value) : result value :=
  match a, b with
  | VNum x, VNum y => Ok (VNum (num_sub x y))
  | _, _ => Raise TypeError
  end.

(** ** IEEE 754 binary64: the arithmetic of Python's [float]

    The operations are those of the Standard Library's [SpecFloat] at
    precision 53 and maximal exponent 1024: a result is the exact one
    rounded to the nearest double, a tie going to the even significand,
    and overflow gives an infinity. *)

Module binary64.

Definition prec : Z := 53.
Definition emax : Z := 1024.

Definition double : Type := spec_float.

Definition zero : double := S754_zero false.

Definition add (a b : double) : double := SFadd prec emax a b.
Definition sub (a b : double) : double := SFsub prec emax a b.
Definition mul (a b : double) : double := SFmul prec emax a b.
Definition div (a b : double) : double := SFdiv prec emax a b.

(** [a >= b]; false when either is a NaN. *)
Definition ge (a b : double) : bool := SFleb b a.

(** An integer as a significand with exponent 0, before any rounding. *)
Definition exact (z : Z) : spec_float :=
  match z with
  | Z0 => S754_zero false
  | Zpos p => S754_finite false p 0
  | Zneg p => S754_finite true p 0
  end.

(** [float(z)] for an int, also the conversion of an int operand that
    meets a float: the nearest double, [OverflowError] when it is out of
    range. *)
Definition of_int (z : Z) : result double :=
  match binary_normalize prec emax z 0 false with
  | S754_infinity _ => Raise OverflowError
  | f => Ok f
  end.

(** [a / b] for two ints, [b] a positive literal: the quotient of the
    integers rounded once, [OverflowError] when it is out of range. *)
Definition truediv (a : Z) (b : positive) : result double :=
  match SFdiv prec emax (exact a) (exact (Z.pos b)) with
  | S754_infinity _ => Raise OverflowError
  | f => Ok f
  end.

(** The double that [PFloat q] stands for: the double of value [q]; a
    rational that is the value of no double is rounded to the nearest. *)
Definition of_Q (q : Q) : double :=
  SFdiv prec emax (exact (Qnum q)) (exact (Z.pos (Qden q))).

(** The value of a double that is finite. *)
Definition to_Q (x : double) : option Q :=
  match x with
  | S754_zero _ => Some 0%Q
  | S754_finite s m e =>
      let n := if s then Z.neg m else Z.pos m in
      Some (if (0 <=? e)%Z then inject_Z (n * 2 ^ e)
            else (n # Z.to_pos (2 ^ (- e))))
  | S754_infinity _ => None
  | S754_nan => None
  end.

(** [round(x)]: the nearest int, a tie to the even one; [ValueError] for a
    NaN and [OverflowError] for an infinity. *)
Definition round (x : double) : result Z :=
  match x with
  | S754_nan => Raise ValueError
  | S754_infinity _ => Raise OverflowError
  | S754_zero _ => Ok 0
  | S754_finite _ _ _ =>
      match to_Q x with
      | Some q => Ok (py_round q)
      | None => Raise ValueError
      end
  end.

(** [float(n)] for a number. *)
Definition float_of (n : num) : result double :=
  match n with
  | PInt z => of_int z
  | PFloat q => Ok (of_Q q)
  end.

(** [(a - b) / k] for an int literal [k]: two ints are subtracted exactly
    and the difference divided as an int; with a float among them the
    other operand and [k] are converted and both operations round. *)
Definition sub_div (a b : num) (k : positive) : result double :=
  match a, b with
  | PInt x, PInt y => truediv (x - y) k
  | _, _ =>
      fa <- float_of a ;;
      fb <- float_of b ;;
      fk <- of_int (Z.pos k) ;;
      Ok (div (sub fa fb) fk)
  end.

(** [x * n] for a float [x] and an int [n]. *)
Definition mul_int (x : double) (n : Z) : result double :=
  fn <- of_int n ;;
  Ok (mul x fn).

End binary64.

(** ** lib/utils.py *)

Module utils.

(** [deferred_value(name, val)]: [if val: return val], else
    [raise LookupError(f'{name} not ready')]. *)
Definition deferred_value (name : string) (val : value) : result value :=
  if truthy val then Ok val
  else Raise (LookupError (name ++ " not ready")%string).

(** [try_get_value(obj, name, default)], applied to the outcome of the
    attribute read: a [LookupError] gives the default, any other exception
    propagates. *)
Definition try_get_value (read : result value) (default : value)
  : result value :=
  match read with
  | Ok v => Ok v
  | Raise (LookupError _) => Ok default
  | Raise e => Raise e
  end.

End utils.

(** ** lib/types.py *)

Module types.

Record Datum : Type := mkDatum { ts : num; hr : Z }.

(** A generator object: the items it has not yielded yet and, once they
    are gone, whether it stops or raises.  After raising, a generator is
    finished. *)
Record Gen : Type := mkGen { g_items : list Datum; g_fin : option Exn }.

Inductive Outcome : Type :=
| Yield (p : Datum)
| Stop
| Throw (e : Exn).

Definition gen_next (g : Gen) : Gen * Outcome :=
  match g_items g, g_fin g with
  | p :: rest, fin => (mkGen rest fin, Yield p)
  | [], Some e => (mkGen [] None, Throw e)
  | [], None => (g, Stop)
  end.

(** What [self._points] refers to: the generator object handed to the
    container (it lives in the [World], since the running frame shares it
    with the attribute) or a concrete list. *)
Inductive Points : Type :=
| PGen
| PList (buf : list Datum).

Record HRTrackerData : Type := mkData {
  _points : option Points;
  _cals : value;
  _start : value;
  _end : value
}.

(** [_reset_times] and [_reset_generator]. *)
Definition _reset_times (d : HRTrackerData) : HRTrackerData :=
  mkData (_points d) (_cals d) VNone VNone.

Definition _reset_generator (d : HRTrackerData) : HRTrackerData :=
  mkData None (_cals d) (_start d) (_end d).

(** [HRTrackerData(iterable, cals)]. *)
Definition init (iterable : option Points) (cals : value) : HRTrackerData :=
  _reset_times (mkData iterable cals VNone VNone).

(** The write-only [points] property. *)
Definition set_points (d : HRTrackerData) (generator : option Points)
  : HRTrackerData :=
  _reset_times (mkData generator (_cals d) (_start d) (_end d)).

Definition start_time (d : HRTrackerData) : result value :=
  utils.deferred_value "start_time" (_start d).

Definition end_time (d : HRTrackerData) : result value :=
  utils.deferred_value "end_time" (_end d).

Definition cals (d : HRTrackerData) : result value :=
  utils.deferred_value "cals" (_cals d).

Definition set_cals (d : HRTrackerData) (val : value) : HRTrackerData :=
  mkData (_points d) val (_start d) (_end d).

(** The container together with the generator object it was given. *)
Record World : Type := mkWorld { gen : Gen; obj : HRTrackerData }.

Definition with_obj (w : World) (d : HRTrackerData) : World :=
  mkWorld (gen w) d.

(** The iterator of the [for point in self._points] loop. *)
Inductive Iter : Type :=
| ItGen
| ItList (rest : list Datum).

Definition iter_of (p : Points) : Iter :=
  match p with
  | PGen => ItGen
  | PList buf => ItList buf
  end.

Definition iter_next (w : World) (it : Iter) : World * Iter * Outcome :=
  match it with
  | ItGen => let (g', o) := gen_next (gen w) in (mkWorld g' (obj w), ItGen, o)
  | ItList [] => (w, ItList [], Stop)
  | ItList (p :: rest) => (w, ItList rest, Yield p)
  end.

(** [bool(self._points)]: a generator object is truthy, a list is truthy
    when it is not empty. *)
Definition points_truthy (p : option Points) : bool :=
  match p with
  | None => false
  | Some PGen => true
  | Some (PList buf) => negb (Nat.eqb (List.length buf) 0)
  end.

(** A frame of [HRTrackerData.__iter__]: not started, suspended at
    [yield point] with its locals, or finished. *)
Inductive Frame : Type :=
| FNew
| FYield (start end_ : value) (point : Datum) (it : Iter)
| FDone.

(** One turn of the [for] loop, entered with the locals [start], [end_]. *)
Definition loop (w : World) (start end_ : value) (it : Iter)
  : World * Frame * Outcome :=
  match iter_next w it with
  | (w', it', Yield point) =>
      let start' := if negb (truthy start) then VNum (ts point) else start in
      (w', FYield start' end_ point it', Yield point)
  | (w', _, Stop) =>
      let d := obj w' in
      (with_obj w' (_reset_generator (mkData (_points d) (_cals d) start end_)),
       FDone, Stop)
  | (w', _, Throw e) => (w', FDone, Throw e)
  end.

(** [next(frame)]. *)
Definition next (w : World) (f : Frame) : World * Frame * Outcome :=
  match f with
  | FNew =>
      if points_truthy (_points (obj w)) then
        match _points (obj w) with
        | Some p => loop w VNone VNone (iter_of p)
        | None => (w, FDone, Throw (LookupError "points not ready"))
        end
      else (w, FDone, Throw (LookupError "points not ready"))
  | FYield start _ point it => loop w start (VNum (ts point)) it
  | FDone => (w, FDone, Stop)
  end.

(** The [for] statement over the container: [it = iter(workout)], then
    [next(it)] until it stops or raises; [body] is the loop body acting on
    the caller's variables.  An exception of the body leaves the loop with
    the frame abandoned.  The result carries the variables as they stand
    when the loop is left.  [fuel] bounds the number of turns. *)
Fixpoint for_loop {A : Type} (fuel : nat) (body : A -> Datum -> result A)
    (w : World) (f : Frame) (acc : A) : option (World * A * option Exn) :=
  match fuel with
  | O => None
  | S k =>
      match next w f with
      | (w', f', Yield p) =>
          match body acc p with
          | Ok acc' => for_loop k body w' f' acc'
          | Raise e => Some (w', acc, Some e)
          end
      | (w', _, Stop) => Some (w', acc, None)
      | (w', _, Throw e) => Some (w', acc, Some e)
      end
  end.

(** The number of items the source of a frame can still hand out. *)
Definition iter_pending (w : World) (it : Iter) : nat :=
  match it with
  | ItGen => S (List.length (g_items (gen w)))
  | ItList rest => List.length rest
  end.

Definition pending (w : World) (f : Frame) : nat :=
  match f with
  | FNew =>
      match _points (obj w) with
      | Some p => iter_pending w (iter_of p)
      | None => O
      end
  | FYield _ _ _ it => iter_pending w it
  | FDone => O
  end.

(** [for point in workout: body], run to its end. *)
Definition for_each {A : Type} (body : A -> Datum -> result A)
    (w : World) (acc : A) : option (World * A * option Exn) :=
  for_loop (S (pending w FNew)) body w FNew acc.

(** [list(workout)] is the loop with this body, started on the empty
    list. *)
Definition collect (acc : list Datum) (p : Datum) : result (list Datum) :=
  Ok (acc ++ [p]).

(** A container freshly wrapping a generator, and one wrapping a list. *)
Definition of_gen (g : Gen) (cals : value) : World :=
  mkWorld g (init (Some PGen) cals).

Definition of_list (buf : list Datum) (cals : value) : World :=
  mkWorld (mkGen [] None) (init (Some (PList buf)) cals).

End types.

(** ** lib/transformers.py *)

Module transformers.
Import types.

(** [a + b] where [a] is a local that may still be [None]. *)
Definition value_add (a : value) (b : num) : result num :=
  match a with
  | VNum n => Ok (num_add n b)
  | _ => Raise TypeError
  end.

(** The locals of [HRTrackerSplitter.__iter__] and the chunks it has
    yielded so far. *)
Record SplitSt : Type := mkSplit {
  buf : list Datum;
  start_t : value;
  out : list HRTrackerData
}.

(** [HRTrackerData(buf, 1)]. *)
Definition chunk (buf : list Datum) : HRTrackerData :=
  init (Some (PList buf)) (VNum (PInt 1)).

(** The body of the loop of [HRTrackerSplitter.__iter__]. *)
Definition split_body (split_t : num) (s : SplitSt) (datum : Datum)
  : result SplitSt :=
  let start_t1 :=
    if negb (truthy (start_t s)) then VNum (ts datum) else start_t s in
  thr <- value_add start_t1 split_t ;;
  if num_ge (ts datum) thr
  then Ok (mkSplit [datum] (VNum (ts datum)) (out s ++ [chunk (buf s)]))
  else Ok (mkSplit (buf s ++ [datum]) start_t1 (out s)).

(** [list(HRTrackerSplitter(tracker, split_at))]: the wrapped tracker
    after the pass, the chunks yielded, and the exception that ended the
    pass, if any.  The last chunk is yielded only when the loop ends
    normally. *)
Definition HRTrackerSplitter (split_at : num) (tracker : World)
  : option (World * list HRTrackerData * option Exn) :=
  match for_each (split_body split_at) tracker (mkSplit [] VNone []) with
  | Some (w, s, None) => Some (w, out s ++ [chunk (buf s)], None)
  | Some (w, s, Some e) => Some (w, out s, Some e)
  | None => None
  end.


(** The Samples a chunk holds. *)
Definition samples (d : HRTrackerData) : list Datum :=
  match _points d with
  | Some (PList buf) => buf
  | _ => []
  end.

End transformers.

(** ** lib/consumers.py

    [HeartPointConfig] is given here with exact arithmetic; [scoring]
    below has it with the rounding of binary64. *)

Module consumers.
Import types.

Record HeartPointConfig : Type := mkConfig {
  _cutoffs : list Q;
  _last_off : Z
}.

(** [get_cutoffs]: [int(hr_max) * float(pct)] for mod, hi, xhi. *)
Definition get_cutoffs (hr_max : Z) (pct_mod pct_hi pct_xhi : Q) : list Q :=
  map (fun pct => (inject_Z hr_max * pct)%Q) [pct_mod; pct_hi; pct_xhi].

Definition _check_pct (val : Q) : result unit :=
  if negb (Qlt_b 0 val && Qlt_b val 1) then Raise ValueError else Ok tt.

(** [HeartPointConfig(hr_max=..., pct_mod=..., pct_hi=..., pct_xhi=...)]. *)
Definition HeartPointConfig_init (hr_max : Z) (pct_mod pct_hi pct_xhi : Q)
  : result HeartPointConfig :=
  if negb ((0 <? hr_max) && (hr_max <=? 220)) then Raise ValueError
  else
    _ <- _check_pct pct_mod ;;
    _ <- _check_pct pct_hi ;;
    _ <- _check_pct pct_xhi ;;
    let cutoffs := get_cutoffs hr_max pct_mod pct_hi pct_xhi in
    Ok (mkConfig cutoffs (Z.of_nat (List.length cutoffs) - 1)).

Record HeartPointObject : Type := mkHPO {
  start : value;
  end_ : value;
  points : Z;
  cals : value
}.

(** The loop of [_points_for_pair] over [range(n - 1, -1, -1)]. *)
Fixpoint scan_cats (cutoffs : list Q) (avg_hr nmins : Q) (n : nat)
  : result Q :=
  match n with
  | O => Ok 0%Q
  | S cat =>
      match nth_error cutoffs cat with
      | Some c =>
          if Qle_bool c avg_hr
          then Ok (nmins * inject_Z (Z.of_nat cat + 1))%Q
          else scan_cats cutoffs avg_hr nmins cat
      | None => Raise IndexError
      end
  end.

Definition _points_for_pair (self : HeartPointConfig) (x0 x1 : Datum)
  : result Q :=
  let nmins := ((to_Q (ts x1) - to_Q (ts x0)) / 60)%Q in
  let avg_hr := (inject_Z (hr x1 + hr x0) / 2)%Q in
  scan_cats (_cutoffs self) avg_hr nmins (Z.to_nat (_last_off self + 1)).

(** The variables [heart_points] shares with its two closures. *)
Inductive VFunc : Type := _firstval | _nextval.

Record HpSt : Type := mkHp {
  npoints : Q;
  oldval : option Datum;
  _vfunc : VFunc
}.

(** [_vfunc(w); _vfunc = _nextval]. *)
Definition hp_body (self : HeartPointConfig) (s : HpSt) (w : Datum)
  : result HpSt :=
  match _vfunc s with
  | _firstval => Ok (mkHp (npoints s) (Some w) _nextval)
  | _nextval =>
      match oldval s with
      | Some x0 =>
          p <- _points_for_pair self x0 w ;;
          Ok (mkHp (npoints s + p)%Q (Some w) _nextval)
      | None => Raise TypeError
      end
  end.

(** [heart_points(workout)]: the workout after the call and the object
    returned or the exception raised. *)
Definition heart_points (self : HeartPointConfig) (workout : World)
  : option (World * result HeartPointObject) :=
  match for_each (hp_body self) workout (mkHp 0%Q None _firstval) with
  | None => None
  | Some (w, _, Some e) => Some (w, Raise e)
  | Some (w, s, None) =>
      Some (w,
            st <- start_time (obj w) ;;
            en <- end_time (obj w) ;;
            c <- utils.try_get_value (types.cals (obj w)) (VNum (PInt 0)) ;;
            Ok (mkHPO st en (py_round (npoints s)) c))
  end.

(** *** PnnSgtLogfile *)

Record PnnSgtLogfile : Type := mkLog {
  _tracker : option World;
  _start : value;
  _elapsed : value;
  _cals : value;
  _filename : value
}.

Definition PnnSgtLogfile_init (tracker : option World) : PnnSgtLogfile :=
  mkLog tracker VNone VNone VNone VNone.

Definition _reset_vals (e : PnnSgtLogfile) : PnnSgtLogfile :=
  mkLog (_tracker e) VNone VNone (_cals e) VNone.

(** The write-only [tracker] property. *)
Definition set_tracker (e : PnnSgtLogfile) (generator : option World)
  : PnnSgtLogfile :=
  _reset_vals (mkLog generator (_start e) (_elapsed e) (_cals e) (_filename e)).

Definition log_start_time (e : PnnSgtLogfile) : result value :=
  utils.deferred_value "start_time" (_start e).

Definition elapsed_time (e : PnnSgtLogfile) : result value :=
  utils.deferred_value "elapsed_time" (_elapsed e).

Definition log_cals (e : PnnSgtLogfile) : result value :=
  utils.deferred_value "cals" (_cals e).

Definition filename (e : PnnSgtLogfile) : result value :=
  utils.deferred_value "filename" (_filename e).

(** [f'{point[0]}000;;Heart rate;{point[1]}\n'.encode('utf-8')]. *)
Definition encode_line (point : Datum) : string :=
  (str_num (ts point) ++ "000;;Heart rate;" ++ str_int (hr point) ++ nl)%string.

Definition log_body (s : bool * list string) (point : Datum)
  : result (bool * list string) :=
  Ok (true, snd s ++ [encode_line point]).

(** The assignments after the loop, taken when [has_pt] holds; each may
    raise and keeps what was assigned before it. *)
Definition derive (e : PnnSgtLogfile) (t : HRTrackerData)
  : PnnSgtLogfile * option Exn :=
  match start_time t with
  | Raise ex => (e, Some ex)
  | Ok st =>
      let e1 := mkLog (_tracker e) st (_elapsed e) (_cals e) (_filename e) in
      match en <- end_time t ;; value_sub en st with
      | Raise ex => (e1, Some ex)
      | Ok el =>
          let e2 := mkLog (_tracker e) st el (_cals e) (_filename e) in
          match c <- types.cals t ;; int_of_value c with
          | Raise ex => (e2, Some ex)
          | Ok c =>
              (mkLog (_tracker e) st el (VNum (PInt c))
                 (VStr ("#date=" ++ str_value st ++ "000#"
                        ++ "time=" ++ str_value el ++ "000#"
                        ++ "calories=" ++ str_int c ++ "#"
                        ++ "type=HeartRate#spmax=0#version=4.txt")%string),
               None)
          end
      end
  end.

(** [list(encoder)]: the encoder after the pass, the lines it yielded and
    the exception that ended the pass, if any. *)
Definition PnnSgtLogfile_iter (e : PnnSgtLogfile)
  : option (PnnSgtLogfile * list string * option Exn) :=
  match _tracker e with
  | None => Some (e, [], Some (LookupError "tracker not ready"))
  | Some t =>
      match for_each log_body t (false, []) with
      | None => None
      | Some (t', (has_pt, lines), Some ex) =>
          Some (mkLog (Some t') (_start e) (_elapsed e) (_cals e) (_filename e),
                lines, Some ex)
      | Some (t', (has_pt, lines), None) =>
          let e' :=
            mkLog (Some t') (_start e) (_elapsed e) (_cals e) (_filename e) in
          if has_pt
          then let (e'', ex) := derive e' (obj t') in Some (e'', lines, ex)
          else Some (e', lines, None)
      end
  end.

End consumers.

(** ** lib/producers.py, plaintext format *)

Module producers.
Import types.

(** Iterating a binary stream: the lines, each with its newline. *)
Fixpoint readlines (s : string) : list string :=
  match s with
  | EmptyString => []
  | String c r =>
      if Ascii.eqb c (ascii_of_nat 10) then String c EmptyString :: readlines r
      else
        match readlines r with
        | [] => [String c EmptyString]
        | l :: ls => String c l :: ls
        end
  end.

Definition continuation (b : N) : bool := ((128 <=? b) && (b <=? 191))%N.

(** The second byte of a three-byte and of a four-byte sequence: no
    overlong forms, no surrogates, nothing above U+10FFFF. *)
Definition second3 (b0 b1 : N) : bool :=
  (if b0 =? 224 then (160 <=? b1) && (b1 <=? 191)
   else if b0 =? 237 then (128 <=? b1) && (b1 <=? 159)
   else continuation b1)%N.

Definition second4 (b0 b1 : N) : bool :=
  (if b0 =? 240 then (144 <=? b1) && (b1 <=? 191)
   else if b0 =? 244 then (128 <=? b1) && (b1 <=? 143)
   else continuation b1)%N.

(** Whether [str(line, 'utf-8')] succeeds. *)
Fixpoint utf8_valid (l : list N) : bool :=
  match l with
  | [] => true
  | b0 :: r0 =>
      if (b0 <? 128)%N then utf8_valid r0
      else if ((194 <=? b0) && (b0 <=? 223))%N then
        match r0 with
        | b1 :: r1 => continuation b1 && utf8_valid r1
        | _ => false
        end
      else if ((224 <=? b0) && (b0 <=? 239))%N then
        match r0 with
        | b1 :: b2 :: r2 => second3 b0 b1 && continuation b2 && utf8_valid r2
        | _ => false
        end
      else if ((240 <=? b0) && (b0 <=? 244))%N then
        match r0 with
        | b1 :: b2 :: b3 :: r3 =>
            second4 b0 b1 && continuation b2 && continuation b3
            && utf8_valid r3
        | _ => false
        end
      else false
  end.

Definition bytes_of (s : string) : list N :=
  map N_of_ascii (list_ascii_of_string s).

(** [try: xdata = str(line, 'utf-8') except UnicodeDecodeError: xdata = ''].
    The text is represented by its UTF-8 bytes. *)
Definition xdata_of (line : string) : string :=
  if utf8_valid (bytes_of line) then line else EmptyString.

(** [s.split(sep)] for a one-character separator. *)
Fixpoint split (sep : ascii) (s : string) : list string :=
  match s with
  | EmptyString => [EmptyString]
  | String c r =>
      if Ascii.eqb c sep then EmptyString :: split sep r
      else
        match split sep r with
        | f :: fs => String c f :: fs
        | [] => [String c EmptyString]
        end
  end.

(** Whether the loop body reaches [continue] for this line. *)
Definition skipped (line : string) : bool :=
  let data := split ";" (xdata_of line) in
  negb (Nat.eqb (List.length data) 4)
  || negb (String.eqb (nth 2 data EmptyString) "Heart rate").

(** [Datum(int(data[0])/1000, int(data[3]))], the quotient kept exact: it
    is the float Python computes whenever it is a double, as for a multiple
    of 1000 of magnitude up to 2^53 * 1000. *)
Definition datum_of (line : string) : result Datum :=
  let data := split ";" (xdata_of line) in
  ms <- py_int (nth 0 data EmptyString) ;;
  h <- py_int (nth 3 data EmptyString) ;;
  Ok (mkDatum (PFloat (inject_Z ms / 1000)%Q) h).

(** The generator [_decode_pnn_sgt_file] over the lines of the stream: the
    Samples it yields and how it ends.  The assignment of the calorie
    value taken from the file name, made after the last line, is outside
    the Sample sequence and is not part of [Gen]. *)
Fixpoint decode_lines (ls : list string) : Gen :=
  match ls with
  | [] => mkGen [] None
  | line :: rest =>
      if skipped line then decode_lines rest
      else
        match datum_of line with
        | Ok d =>
            let g := decode_lines rest in mkGen (d :: g_items g) (g_fin g)
        | Raise e => mkGen [] (Some e)
        end
  end.

Definition _decode_pnn_sgt_file (stream : string) : Gen :=
  decode_lines (readlines stream).

(** [b''.join(lines)]: the lines an encoder yields, as one stream. *)
Definition join (lines : list string) : string :=
  fold_right String.append EmptyString lines.

(** Two Samples that compare equal in Python: the same number as
    timestamp, the same heart rate. *)
Definition same_sample (a b : Datum) : Prop :=
  num_eq (ts a) (ts b) /\ hr a = hr b.

Definition int_timestamp (x : Datum) : Prop := exists t, ts x = PInt t.

End producers.

(** ** Traces of a generator-backed container *)

Module traces.
Import types.

(** A call [next(frame)] that runs the source to its end: the pass
    completes and records the times. *)
Definition completes (w : World) (f : Frame) : bool :=
  match f with
  | FDone => false
  | _ =>
      match next w f with
      | (_, _, Stop) => true
      | _ => false
      end
  end.

(** The states of [HRTrackerData(g, c)] reached by calls of [iter] (which
    abandons the frame in hand) and [next], with whether some pass has
    completed on the way. *)
Inductive reach (g : Gen) (c : value) : World -> Frame -> bool -> Prop :=
| reach_init : reach g c (of_gen g c) FNew false
| reach_iter w f b : reach g c w f b -> reach g c w FNew b
| reach_next w f b :
    reach g c w f b ->
    reach g c (fst (fst (next w f))) (snd (fst (next w f)))
      (b || completes w f).

(** The locals [start], [end] after a pass over [l]. *)
Fixpoint track (start end_ : value) (l : list Datum) : value * value :=
  match l with
  | [] => (start, end_)
  | p :: r =>
      track (if negb (truthy start) then VNum (ts p) else start)
        (VNum (ts p)) r
  end.

(** The [for] statement over a fresh generator-backed container in one
    step: the loop body folded over the items, the generator as it is left
    and the times recorded when the pass completes. *)
Fixpoint run {A : Type} (body : A -> Datum -> result A) (d : HRTrackerData)
    (fin : option Exn) (rest : list Datum) (start end_ : value) (acc : A)
  : World * A * option Exn :=
  match rest with
  | [] =>
      match fin with
      | None =>
          (mkWorld (mkGen [] None) (mkData None (_cals d) start end_),
           acc, None)
      | Some e => (mkWorld (mkGen [] None) d, acc, Some e)
      end
  | p :: r =>
      match body acc p with
      | Ok acc' =>
          run body d fin r
            (if negb (truthy start) then VNum (ts p) else start)
            (VNum (ts p)) acc'
      | Raise e => (mkWorld (mkGen r fin) d, acc, Some e)
      end
  end.

(** The world a completed pass over the items [l] leaves. *)
Definition drained (c : value) (l : list Datum) : World :=
  mkWorld (mkGen [] None)
    (mkData None c (fst (track VNone VNone l)) (snd (track VNone VNone l))).

End traces.

(** ** The scoring rule and the stream relations, as the specification
    words them *)

Module spec.
Import types.

(** [cutoff[i] = hr_max * pct[i]] for moderate, vigorous, extra-vigorous. *)
Definition cutoffs (hr_max : Z) (pct_mod pct_hi pct_xhi : Q) : list Q :=
  [(inject_Z hr_max * pct_mod)%Q; (inject_Z hr_max * pct_hi)%Q;
   (inject_Z hr_max * pct_xhi)%Q].

(** The highest zone index [z], counted from [i], whose cutoff the average
    heart rate reaches. *)
Fixpoint zone_from (i : nat) (cs : list Q) (average : Q) : option nat :=
  match cs with
  | [] => None
  | c :: r =>
      match zone_from (S i) r average with
      | Some z => Some z
      | None => if Qle_bool c average then Some i else None
      end
  end.

Definition zone (cs : list Q) (average : Q) : option nat :=
  zone_from 0 cs average.

(** The points of one consecutive pair. *)
Definition pair_points (cs : list Q) (x0 x1 : Datum) : Q :=
  let elapsed_minutes := ((to_Q (ts x1) - to_Q (ts x0)) / 60)%Q in
  let average := (inject_Z (hr x0 + hr x1) / 2)%Q in
  match zone cs average with
  | Some z => (elapsed_minutes * inject_Z (Z.of_nat z + 1))%Q
  | None => 0%Q
  end.

(** The sum over all consecutive pairs. *)
Fixpoint total (cs : list Q) (l : list Datum) : Q :=
  match l with
  | x0 :: ((x1 :: _) as r) => (pair_points cs x0 x1 + total cs r)%Q
  | _ => 0%Q
  end.


(** A new chunk begins whenever a Sample's timestamp is at or past the
    chunk's start timestamp plus [split_at]: inside a chunk no Sample after
    the first reaches that threshold ... *)
Definition within (split_at : num) (c : list Datum) : Prop :=
  match c with
  | [] => True
  | first :: rest =>
      Forall (fun d => num_ge (ts d) (num_add (ts first) split_at) = false)
        rest
  end.

(** ... and the first Sample of a chunk is at or past the threshold of
    the chunk before it. *)
Definition follows (split_at : num) (c1 c2 : list Datum) : Prop :=
  match c1, c2 with
  | first1 :: _, first2 :: _ =>
      num_ge (ts first2) (num_add (ts first1) split_at) = true
  | _, _ => True
  end.

Fixpoint boundaries (split_at : num) (cs : list (list Datum)) : Prop :=
  match cs with
  | c1 :: ((c2 :: _) as r) => follows split_at c1 c2 /\ boundaries split_at r
  | _ => True
  end.




End spec.

(** ** lib/transformers.py: filter, identity, merger *)

Module filters.
Import types.

(** [datum[1] >= self._hr_min and datum[1] <= self._hr_max]. *)
Definition in_range (hr_min hr_max : Z) (datum : Datum) : bool :=
  (hr_min <=? hr datum) && (hr datum <=? hr_max).

(** [for datum in HRTrackerFilter(tracker, hr_min, hr_max): body].  The
    filter's frame pulls from the tracker and hands on the Samples in
    range; the consumer's body acts on those only. *)
Definition filter_body {A : Type} (hr_min hr_max : Z)
    (body : A -> Datum -> result A) (acc : A) (datum : Datum) : result A :=
  if in_range hr_min hr_max datum then body acc datum else Ok acc.

Definition HRTrackerFilter {A : Type} (hr_min hr_max : Z)
    (body : A -> Datum -> result A) (tracker : World) (acc : A)
  : option (World * A * option Exn) :=
  for_each (filter_body hr_min hr_max body) tracker acc.

(** [for datum in HRTrackerIdentityTransform(tracker): body]. *)
Definition HRTrackerIdentityTransform {A : Type}
    (body : A -> Datum -> result A) (tracker : World) (acc : A)
  : option (World * A * option Exn) :=
  for_each body tracker acc.

(** [heart_points(HRTrackerFilter(workout, hr_min, hr_max))]: the loop runs
    over the filter, and the reads of [start_time], [end_time] and [cals]
    go through the filter's [__getattr__] to the wrapped container. *)
Definition heart_points_filter (self : consumers.HeartPointConfig)
    (hr_min hr_max : Z) (workout : World)
  : option (World * result consumers.HeartPointObject) :=
  match HRTrackerFilter hr_min hr_max (consumers.hp_body self) workout
          (consumers.mkHp 0%Q None consumers._firstval) with
  | None => None
  | Some (w, _, Some e) => Some (w, Raise e)
  | Some (w, s, None) =>
      Some (w,
            st <- start_time (obj w) ;;
            en <- end_time (obj w) ;;
            c <- utils.try_get_value (types.cals (obj w)) (VNum (PInt 0)) ;;
            Ok (consumers.mkHPO st en (py_round (consumers.npoints s)) c))
  end.

(** [itertools.chain] over the trackers, as a generator: the Samples
    that the trackers, distinct containers, hand out when iterated one
    after the other, up to the first exception. *)
Fixpoint chain (trackers : list World) : option Gen :=
  match trackers with
  | [] => Some (mkGen [] None)
  | t :: rest =>
      match for_each collect t [] with
      | None => None
      | Some (_, items, Some e) => Some (mkGen items (Some e))
      | Some (_, items, None) =>
          match chain rest with
          | Some g => Some (mkGen (items ++ g_items g) (g_fin g))
          | None => None
          end
      end
  end.

(** [HRTrackerMerger]: an [HRTrackerData] over the chain of the trackers,
    behind the identity transform. *)
Definition HRTrackerMerger (trackers : list World) : option World :=
  match chain trackers with
  | Some g => Some (of_gen g VNone)
  | None => None
  end.

End filters.

(** ** lib/consumers.py: [HeartPointConfig] in binary64

    The scoring code once more, now with every float operation rounded as
    Python rounds it.  A timestamp [PFloat q] is read as the double of
    value [q]. *)

Module scoring.
Import types.

Record HeartPointConfig : Type := mkConfig {
  _cutoffs : list binary64.double;
  _last_off : Z
}.

(** [int(n)] for a number: a float is truncated toward zero. *)
Definition int_of (n : num) : Z :=
  match n with
  | PInt z => z
  | PFloat q => Z.quot (Qnum q) (Z.pos (Qden q))
  end.

(** [int(hr_max) * float(pct)]: the int operand is converted when it meets
    the float. *)
Definition cutoff (hr_max pct : num) : result binary64.double :=
  p <- binary64.float_of pct ;;
  h <- binary64.of_int (int_of hr_max) ;;
  Ok (binary64.mul h p).

(** [get_cutoffs]: [int(hr_max) * float(pct)] for mod, hi, xhi, on
    numbers. *)
Definition get_cutoffs (hr_max pct_mod pct_hi pct_xhi : num)
  : result (list binary64.double) :=
  c_mod <- cutoff hr_max pct_mod ;;
  c_hi <- cutoff hr_max pct_hi ;;
  c_xhi <- cutoff hr_max pct_xhi ;;
  Ok [c_mod; c_hi; c_xhi].

(** [_check_pct(val, name)]: [val > 0.0 and val < 1.0], a comparison that
    raises [TypeError] when [val] is no number; the number is handed on. *)
Definition _check_pct (val : value) : result num :=
  match val with
  | VNum n =>
      if negb (Qlt_b 0 (to_Q n) && Qlt_b (to_Q n) 1) then Raise ValueError
      else Ok n
  | _ => Raise TypeError
  end.

(** [hr_max > 0 and hr_max <= 220]. *)
Definition _check_hr_max (hr_max : value) : result num :=
  match hr_max with
  | VNum n =>
      if negb (Qlt_b 0 (to_Q n) && Qle_bool (to_Q n) 220) then Raise ValueError
      else Ok n
  | _ => Raise TypeError
  end.

(** [HeartPointConfig(hr_max=..., pct_mod=..., pct_hi=..., pct_xhi=...)]. *)
Definition HeartPointConfig_init (hr_max pct_mod pct_hi pct_xhi : value)
  : result HeartPointConfig :=
  h <- _check_hr_max hr_max ;;
  pm <- _check_pct pct_mod ;;
  ph <- _check_pct pct_hi ;;
  px <- _check_pct pct_xhi ;;
  cutoffs <- get_cutoffs h pm ph px ;;
  Ok (mkConfig cutoffs (Z.of_nat (List.length cutoffs) - 1)).

(** The loop of [_points_for_pair] over [range(n - 1, -1, -1)]. *)
Fixpoint scan_cats (cutoffs : list binary64.double)
    (avg_hr nmins : binary64.double) (n : nat) : result binary64.double :=
  match n with
  | O => Ok binary64.zero
  | S cat =>
      match nth_error cutoffs cat with
      | Some c =>
          if binary64.ge avg_hr c
          then binary64.mul_int nmins (Z.of_nat cat + 1)
          else scan_cats cutoffs avg_hr nmins cat
      | None => Raise IndexError
      end
  end.

Definition _points_for_pair (self : HeartPointConfig) (x0 x1 : Datum)
  : result binary64.double :=
  nmins <- binary64.sub_div (ts x1) (ts x0) 60 ;;
  avg_hr <- binary64.truediv (hr x1 + hr x0) 2 ;;
  scan_cats (_cutoffs self) avg_hr nmins (Z.to_nat (_last_off self + 1)).

Record HpSt : Type := mkHp {
  npoints : binary64.double;
  oldval : option Datum;
  _vfunc : consumers.VFunc
}.

(** [_vfunc(w); _vfunc = _nextval]. *)
Definition hp_body (self : HeartPointConfig) (s : HpSt) (w : Datum)
  : result HpSt :=
  match _vfunc s with
  | consumers._firstval => Ok (mkHp (npoints s) (Some w) consumers._nextval)
  | consumers._nextval =>
      match oldval s with
      | Some x0 =>
          p <- _points_for_pair self x0 w ;;
          Ok (mkHp (binary64.add (npoints s) p) (Some w) consumers._nextval)
      | None => Raise TypeError
      end
  end.

(** The [return] statement of [heart_points]: the arguments are evaluated
    from left to right. *)
Definition report (workout : HRTrackerData) (npoints : binary64.double)
  : result consumers.HeartPointObject :=
  st <- start_time workout ;;
  en <- end_time workout ;;
  p <- binary64.round npoints ;;
  c <- utils.try_get_value (types.cals workout) (VNum (PInt 0)) ;;
  Ok (consumers.mkHPO st en p c).

(** [heart_points(workout)]: the workout after the call and the object
    returned or the exception raised. *)
Definition heart_points (self : HeartPointConfig) (workout : World)
  : option (World * result consumers.HeartPointObject) :=
  match for_each (hp_body self) workout
          (mkHp binary64.zero None consumers._firstval) with
  | None => None
  | Some (w, _, Some e) => Some (w, Raise e)
  | Some (w, s, None) => Some (w, report (obj w) (npoints s))
  end.

(** [heart_points(HRTrackerFilter(workout, hr_min, hr_max))]. *)
Definition heart_points_filter (self : HeartPointConfig)
    (hr_min hr_max : Z) (workout : World)
  : option (World * result consumers.HeartPointObject) :=
  match filters.HRTrackerFilter hr_min hr_max (hp_body self) workout
          (mkHp binary64.zero None consumers._firstval) with
  | None => None
  | Some (w, _, Some e) => Some (w, Raise e)
  | Some (w, s, None) => Some (w, report (obj w) (npoints s))
  end.

End scoring.

(** ** The scoring rule as the specification words it, in binary64 *)

Module rule.
Import types.

(** The highest zone index [z], counted from [i], whose cutoff the average
    heart rate reaches. *)
Fixpoint zone_from (i : nat) (cs : list binary64.double)
    (average : binary64.double) : option nat :=
  match cs with
  | [] => None
  | c :: r =>
      match zone_from (S i) r average with
      | Some z => Some z
      | None => if binary64.ge average c then Some i else None
      end
  end.

Definition zone (cs : list binary64.double) (average : binary64.double)
  : option nat :=
  zone_from 0 cs average.

(** The points of one consecutive pair: elapsed minutes times the zone
    index plus 1, or 0 when no cutoff is reached. *)
Definition pair_points (cs : list binary64.double) (x0 x1 : Datum)
  : result binary64.double :=
  elapsed_minutes <- binary64.sub_div (ts x1) (ts x0) 60 ;;
  average <- binary64.truediv (hr x0 + hr x1) 2 ;;
  match zone cs average with
  | Some z => binary64.mul_int elapsed_minutes (Z.of_nat z + 1)
  | None => Ok binary64.zero
  end.

(** The sum over all consecutive pairs, taken in stream order. *)
Fixpoint total_from (cs : list binary64.double) (sum : binary64.double)
    (l : list Datum) : result binary64.double :=
  match l with
  | x0 :: ((x1 :: _) as r) =>
      p <- pair_points cs x0 x1 ;;
      total_from cs (binary64.add sum p) r
  | _ => Ok sum
  end.

Definition total (cs : list binary64.double) (l : list Datum)
  : result binary64.double :=
  total_from cs binary64.zero l.

(** The cutoffs in ascending order. *)
Fixpoint ascending (cs : list binary64.double) : Prop :=
  match cs with
  | c0 :: ((c1 :: _) as r) => binary64.ge c1 c0 = true /\ ascending r
  | _ => True
  end.

End rule.

(** ** lib/producers.py: the calorie value in the file name *)

Module calories.
Import types.

Fixpoint strip_prefix (prefix l : list ascii) : option (list ascii) :=
  match prefix, l with
  | [], _ => Some l
  | p :: ps, c :: r => if Ascii.eqb p c then strip_prefix ps r else None
  | _ :: _, [] => None
  end.

(** The longest run of [[0-9]] at the head, and what follows it. *)
Fixpoint digits_run (l : list ascii) : list ascii * list ascii :=
  match l with
  | c :: r =>
      if is_digit c then let (ds, rest) := digits_run r in (c :: ds, rest)
      else ([], l)
  | [] => ([], [])
  end.

(** A match of [#calories=([0-9]+)#] at the head: the literal, a run of
    digits that is not empty, and [#] right after the whole run; the digits
    are group 1. *)
Definition match_here (l : list ascii) : option (list ascii) :=
  match strip_prefix (list_ascii_of_string "#calories=") l with
  | Some r =>
      match digits_run r with
      | (d :: ds, "#"%char :: _) => Some (d :: ds)
      | _ => None
      end
  | None => None
  end.

(** [re.search(r'#calories=([0-9]+)#', filename)]: the leftmost match. *)
Fixpoint search (l : list ascii) : option (list ascii) :=
  match match_here l with
  | Some g => Some g
  | None =>
      match l with
      | [] => None
      | _ :: r => search r
      end
  end.

(** The statements of [_decode_pnn_sgt_file] after its loop, acting on the
    container: [if filename: m = re.search(...); if m: container.cals =
    m.group(1)]. *)
Definition after_lines (filename : option string) (container : HRTrackerData)
  : HRTrackerData :=
  match filename with
  | Some name =>
      if String.eqb name EmptyString then container
      else
        match search (list_ascii_of_string name) with
        | Some g => set_cals container (VStr (string_of_list_ascii g))
        | None => container
        end
  | None => container
  end.

(** A complete pass over the container that [decode_stream] builds for a
    plaintext stream: the Samples collected, and the container as it is
    left.  The decoder raises before it reaches the statements after its
    loop, or runs them as its last act, before the container records the
    times. *)
Definition decoded_pass (stream : string) (filename : option string)
  : option (World * list Datum * option Exn) :=
  match for_each collect (of_gen (producers._decode_pnn_sgt_file stream) VNone)
          [] with
  | Some (w, items, None) =>
      Some (with_obj w (after_lines filename (obj w)), items, None)
  | other => other
  end.

End calories.

(** ** Loop invariants *)

(** What the splitter's locals satisfy when no timestamp is falsy: the
    chunk in hand starts at [start_t], and the chunks so far, the one in
    hand included, keep the boundaries. *)
Definition split_inv (split_t : num) (s : transformers.SplitSt) : Prop :=
  ((transformers.start_t s = VNone /\ transformers.buf s = []
    /\ transformers.out s = [])
   \/ exists first rest,
        transformers.buf s = first :: rest
        /\ transformers.start_t s = VNum (types.ts first)
        /\ num_truthy (types.ts first) = true)
  /\ Forall (spec.within split_t)
       (map transformers.samples (transformers.out s) ++ [transformers.buf s])
  /\ spec.boundaries split_t
       (map transformers.samples (transformers.out s) ++ [transformers.buf s]).

(** * Properties *)

Import types.

(** ** The builtins *)




(** ** One step of the container's iterator *)

Lemma deferred_value_falsy (name : string) (v : value) :
  truthy v = false ->
  utils.deferred_value name v = Raise (LookupError (name ++ " not ready")%string).
Proof. intros H. unfold utils.deferred_value. rewrite H. reflexivity. Qed.

Lemma deferred_value_ok (name : string) (v r : value) :
  utils.deferred_value name v = Ok r -> r = v /\ truthy v = true.
Proof.
  unfold utils.deferred_value. destruct (truthy v); [|discriminate].
  intros H. injection H as <-. split; reflexivity.
Qed.

(** What a turn of the loop does to the container: nothing, unless the
    source stops, and then the times are assigned and [_points] reset. *)
Lemma loop_obj (w : World) (s e : value) (it : Iter) :
  let '(w', f', o) := loop w s e it in
  match o with
  | Stop => obj w' = mkData None (_cals (obj w)) s e /\ f' = FDone
  | _ => obj w' = obj w
  end.
Proof.
  unfold loop, iter_next.
  destruct it as [|[|p rest]]; simpl; auto.
  unfold gen_next.
  destruct (g_items (gen w)) as [|p rest]; [destruct (g_fin (gen w))|];
    simpl; auto.
Qed.

Lemma next_obj (w : World) (f : Frame) :
  let '(w', f', o) := next w f in
  match o with
  | Stop =>
      (f = FDone /\ w' = w)
      \/ (f <> FDone /\ f' = FDone
          /\ exists s e, obj w' = mkData None (_cals (obj w)) s e)
  | _ => obj w' = obj w
  end.
Proof.
  destruct f as [|s e p it|]; simpl.
  - destruct (points_truthy (_points (obj w))); [|reflexivity].
    destruct (_points (obj w)) as [pts|]; [|reflexivity].
    pose proof (loop_obj w VNone VNone (iter_of pts)) as H.
    destruct (loop w VNone VNone (iter_of pts)) as [[w' f'] o].
    destruct o; auto.
    right. destruct H as [H1 H2]. repeat split; try discriminate; eauto.
  - pose proof (loop_obj w s (VNum (ts p)) it) as H.
    destruct (loop w s (VNum (ts p)) it) as [[w' f'] o].
    destruct o; auto.
    right. destruct H as [H1 H2]. repeat split; try discriminate; eauto.
  - left; split; reflexivity.
Qed.

(** A step that does not complete a pass leaves the container as it is. *)
Lemma next_incomplete (w : World) (f : Frame) :
  traces.completes w f = false -> obj (fst (fst (next w f))) = obj w.
Proof.
  unfold traces.completes. intros H.
  pose proof (next_obj w f) as N.
  destruct (next w f) as [[w' f'] o]; simpl.
  destruct o; try exact N.
  destruct N as [[_ ->] | (Hf & _)]; [reflexivity|].
  destruct f; try discriminate; congruence.
Qed.

Lemma next_cals (w : World) (f : Frame) :
  _cals (obj (fst (fst (next w f)))) = _cals (obj w).
Proof.
  pose proof (next_obj w f) as N.
  destruct (next w f) as [[w' f'] o]; simpl.
  destruct o; try (rewrite N; reflexivity).
  destruct N as [[_ ->] | (_ & _ & s & e & ->)]; reflexivity.
Qed.

(** Once [_points] is reset it stays reset, and a completing step resets
    it. *)
Lemma next_points_reset (w : World) (f : Frame) :
  _points (obj w) = None \/ traces.completes w f = true ->
  _points (obj (fst (fst (next w f)))) = None.
Proof.
  unfold traces.completes. intros H.
  pose proof (next_obj w f) as N.
  destruct (next w f) as [[w' f'] o]; simpl.
  destruct o.
  - rewrite N. destruct H as [H | H]; [exact H|]. destruct f; discriminate.
  - destruct N as [[-> ->] | (_ & _ & s & e & ->)]; [|reflexivity].
    destruct H as [H | H]; [exact H | discriminate].
  - rewrite N. destruct H as [H | H]; [exact H|]. destruct f; discriminate.
Qed.

(** ** Reachable states *)

Lemma reach_cals (g : Gen) (c : value) (w : World) (f : Frame) (b : bool) :
  traces.reach g c w f b -> _cals (obj w) = c.
Proof.
  induction 1; [reflexivity | assumption |].
  rewrite next_cals. assumption.
Qed.

Lemma reach_times_unset (g : Gen) (c : value) (w : World) (f : Frame)
    (b : bool) :
  traces.reach g c w f b ->
  b = false -> _start (obj w) = VNone /\ _end (obj w) = VNone.
Proof.
  induction 1; intros Hb.
  - split; reflexivity.
  - auto.
  - apply orb_false_iff in Hb. destruct Hb as [Hb Hc].
    rewrite (next_incomplete _ _ Hc). auto.
Qed.

Lemma reach_points_reset (g : Gen) (c : value) (w : World) (f : Frame)
    (b : bool) :
  traces.reach g c w f b -> b = true -> _points (obj w) = None.
Proof.
  induction 1; intros Hb.
  - discriminate.
  - auto.
  - apply next_points_reset.
    apply orb_true_iff in Hb. destruct Hb as [Hb | Hc]; auto.
Qed.

(** Iterating a container whose [_points] is reset fails at the first
    request and changes nothing. *)
Lemma next_exhausted (w : World) :
  _points (obj w) = None ->
  next w FNew = (w, FDone, Throw (LookupError "points not ready")).
Proof. intros H. simpl. rewrite H. reflexivity. Qed.

(** ** The [for] statement terminates *)

Lemma loop_pending (w : World) (s e : value) (it : Iter) :
  let '(w', f', o) := loop w s e it in
  match o with
  | Yield _ => (pending w' f' < iter_pending w it)%nat
  | _ => True
  end.
Proof.
  unfold loop, iter_next.
  destruct it as [|[|p rest]]; simpl; auto.
  unfold gen_next.
  destruct (g_items (gen w)) as [|p rest]; [destruct (g_fin (gen w))|];
    simpl; auto.
Qed.

Lemma next_pending (w : World) (f : Frame) :
  let '(w', f', o) := next w f in
  match o with
  | Yield _ => (pending w' f' < pending w f)%nat
  | _ => True
  end.
Proof.
  destruct f as [|s e p it|]; simpl; auto.
  - destruct (points_truthy (_points (obj w))); [|exact I].
    destruct (_points (obj w)) as [pts|]; [|exact I].
    apply loop_pending.
  - apply loop_pending.
Qed.

Lemma for_loop_total {A : Type} (body : A -> Datum -> result A) (fuel : nat) :
  forall (w : World) (f : Frame) (acc : A),
    (pending w f < fuel)%nat ->
    exists r, for_loop fuel body w f acc = Some r.
Proof.
  induction fuel as [|k IH]; intros w f acc H; [lia|].
  simpl. pose proof (next_pending w f) as P.
  destruct (next w f) as [[w' f'] o].
  destruct o as [p| |e]; eauto.
  destruct (body acc p); eauto.
  apply IH. lia.
Qed.

Lemma for_each_total {A : Type} (body : A -> Datum -> result A) (w : World)
    (acc : A) :
  exists r, for_each body w acc = Some r.
Proof. apply for_loop_total. lia. Qed.

(** A property of the loop variables that every turn of the body keeps
    holds when the loop is left. *)
Lemma for_loop_invariant {A : Type} (P : A -> Prop)
    (body : A -> Datum -> result A) :
  (forall a p a', P a -> body a p = Ok a' -> P a') ->
  forall (fuel : nat) (w : World) (f : Frame) (a : A) w' a' e,
    P a -> for_loop fuel body w f a = Some (w', a', e) -> P a'.
Proof.
  intros Hbody. induction fuel as [|k IH]; intros w f a w' a' e Ha H;
    [discriminate|].
  simpl in H. destruct (next w f) as [[w1 f1] o].
  destruct o as [p| |ex].
  - destruct (body a p) eqn:B.
    + eapply IH; [|exact H]. eapply Hbody; eassumption.
    + injection H as _ <- _. exact Ha.
  - injection H as _ <- _. exact Ha.
  - injection H as _ <- _. exact Ha.
Qed.

(** ** The claims about the container *)

(** C1. A calorie estimate that was set to the integer 0 does not read
    back: the getter raises [LookupError], exactly as it does for a value
    that was never set, so the two cannot be told apart. *)
Theorem cals_zero_reads_unavailable (d : HRTrackerData) :
  cals (set_cals d (VNum (PInt 0))) = Raise (LookupError "cals not ready")
  /\ cals (set_cals d (VNum (PInt 0))) = cals (set_cals d VNone).
Proof. split; reflexivity. Qed.

(** C3. In every state of a generator-backed container reached without
    any pass having run to completion (before iteration, or after passes
    abandoned part-way), reading [start_time] and [end_time] raises
    [LookupError]; a calorie estimate that was never set raises at all
    times; hence a time that reads back implies a completed pass. *)
Theorem fields_unavailable_until_completion (g : Gen) (w : World)
    (f : Frame) (b : bool) :
  traces.reach g VNone w f b ->
  cals (obj w) = Raise (LookupError "cals not ready")
  /\ (b = false ->
      start_time (obj w) = Raise (LookupError "start_time not ready")
      /\ end_time (obj w) = Raise (LookupError "end_time not ready"))
  /\ (forall v, start_time (obj w) = Ok v \/ end_time (obj w) = Ok v ->
      b = true).
Proof.
  intros R.
  assert (T : b = false ->
      start_time (obj w) = Raise (LookupError "start_time not ready")
      /\ end_time (obj w) = Raise (LookupError "end_time not ready")).
  { intros Hb. destruct (reach_times_unset _ _ _ _ _ R Hb) as [Hs He].
    unfold start_time, end_time. rewrite Hs, He. split; reflexivity. }
  split; [|split].
  - unfold cals. rewrite (reach_cals _ _ _ _ _ R). reflexivity.
  - exact T.
  - intros v H. destruct b; [reflexivity|].
    destruct (T eq_refl) as [Hs He].
    destruct H as [H | H]; congruence.
Qed.

Lemma fields_unavailable_until_completion_witness :
  let g := mkGen [mkDatum (PInt 10) 100; mkDatum (PInt 20) 110] None in
  let w := fst (fst (next (of_gen g VNone) FNew)) in
  gen w = mkGen [mkDatum (PInt 20) 110] None
  /\ cals (obj w) = Raise (LookupError "cals not ready")
  /\ start_time (obj w) = Raise (LookupError "start_time not ready")
  /\ end_time (obj w) = Raise (LookupError "end_time not ready").
Proof.
  intros g w.
  pose proof (fields_unavailable_until_completion g _ _ _
                (traces.reach_next g VNone _ _ _ (traces.reach_init g VNone)))
    as (Hc & Ht & _).
  destruct (Ht eq_refl) as [Hs He].
  split; [reflexivity|]. split; [exact Hc|]. split; [exact Hs | exact He].
Defined.

(** C10. Once some pass over a generator-backed container has completed,
    a new attempt to iterate raises [LookupError] at the first request,
    and the container, with the times the completed pass recorded, is left
    exactly as it was: [start_time] and [end_time] read the same before
    and after the failed attempt. *)
Theorem reiteration_after_completion_raises (g : Gen) (c : value)
    (w : World) (f : Frame) :
  traces.reach g c w f true ->
  next w FNew = (w, FDone, Throw (LookupError "points not ready"))
  /\ start_time (obj (fst (fst (next w FNew)))) = start_time (obj w)
  /\ end_time (obj (fst (fst (next w FNew)))) = end_time (obj w).
Proof.
  intros R.
  pose proof (next_exhausted w (reach_points_reset _ _ _ _ _ R eq_refl)) as N.
  rewrite N. repeat split; reflexivity.
Qed.

Lemma reiteration_after_completion_raises_witness :
  let g := mkGen [mkDatum (PInt 10) 100; mkDatum (PInt 20) 110] None in
  let w0 := of_gen g VNone in
  let w1 := fst (fst (next w0 FNew)) in
  let f1 := snd (fst (next w0 FNew)) in
  let w2 := fst (fst (next w1 f1)) in
  let f2 := snd (fst (next w1 f1)) in
  let w3 := fst (fst (next w2 f2)) in
  snd (next w2 f2) = Stop
  /\ start_time (obj w3) = Ok (VNum (PInt 10))
  /\ end_time (obj w3) = Ok (VNum (PInt 20))
  /\ next w3 FNew = (w3, FDone, Throw (LookupError "points not ready"))
  /\ start_time (obj (fst (fst (next w3 FNew)))) = Ok (VNum (PInt 10))
  /\ end_time (obj (fst (fst (next w3 FNew)))) = Ok (VNum (PInt 20)).
Proof.
  intros g w0 w1 f1 w2 f2 w3.
  pose proof (reiteration_after_completion_raises g VNone w3 _
    (traces.reach_next g VNone _ _ _
       (traces.reach_next g VNone _ _ _
          (traces.reach_next g VNone _ _ _ (traces.reach_init g VNone)))))
    as (Hn & Hs & He).
  split; [reflexivity|]. split; [reflexivity|]. split; [reflexivity|].
  split; [exact Hn|]. split; [rewrite Hs | rewrite He]; reflexivity.
Defined.

(** ** The [for] statement over a fresh generator-backed container *)

Lemma for_loop_S {A : Type} (body : A -> Datum -> result A) (k : nat)
    (w : World) (f : Frame) (acc : A) :
  for_loop (S k) body w f acc
  = match next w f with
    | (w', f', Yield p) =>
        match body acc p with
        | Ok acc' => for_loop k body w' f' acc'
        | Raise e => Some (w', acc, Some e)
        end
    | (w', _, Stop) => Some (w', acc, None)
    | (w', _, Throw e) => Some (w', acc, Some e)
    end.
Proof. reflexivity. Qed.

Lemma next_yield_cons (d : HRTrackerData) (fin : option Exn) (q : Datum)
    (r : list Datum) (start e : value) (p : Datum) :
  next (mkWorld (mkGen (q :: r) fin) d) (FYield start e p ItGen)
  = (mkWorld (mkGen r fin) d,
     FYield (if negb (truthy start) then VNum (ts q) else start)
       (VNum (ts p)) q ItGen,
     Yield q).
Proof. reflexivity. Qed.

Lemma next_fresh_cons (c : value) (fin : option Exn) (q : Datum)
    (r : list Datum) :
  next (of_gen (mkGen (q :: r) fin) c) FNew
  = (mkWorld (mkGen r fin) (init (Some PGen) c),
     FYield (VNum (ts q)) VNone q ItGen, Yield q).
Proof. reflexivity. Qed.

Lemma for_loop_run {A : Type} (body : A -> Datum -> result A)
    (d : HRTrackerData) (fin : option Exn) (rest : list Datum) :
  forall (fuel : nat) (start e : value) (p : Datum) (acc : A),
    (S (List.length rest) < fuel)%nat ->
    for_loop fuel body (mkWorld (mkGen rest fin) d) (FYield start e p ItGen) acc
    = Some (traces.run body d fin rest start (VNum (ts p)) acc).
Proof.
  induction rest as [|q r IH]; intros fuel start e p acc H;
    (destruct fuel as [|k]; [lia|]).
  - simpl. destruct fin; destruct d; reflexivity.
  - rewrite for_loop_S, next_yield_cons. simpl traces.run.
    destruct (body acc q); [|reflexivity].
    apply IH. simpl in H. lia.
Qed.

Lemma for_each_run {A : Type} (body : A -> Datum -> result A) (l : list Datum)
    (fin : option Exn) (c : value) (acc : A) :
  for_each body (of_gen (mkGen l fin) c) acc
  = Some (traces.run body (init (Some PGen) c) fin l VNone VNone acc).
Proof.
  unfold for_each. destruct l as [|q r].
  - simpl. destruct fin; reflexivity.
  - rewrite for_loop_S, next_fresh_cons. simpl traces.run.
    destruct (body acc q); [|reflexivity].
    apply for_loop_run. simpl. lia.
Qed.

(** ** The splitter *)

Import transformers.

Lemma samples_chunk (b : list Datum) : samples (chunk b) = b.
Proof. reflexivity. Qed.





(** A pass over a list-backed container hands out the rest of the list
    and records the times. *)
Lemma for_loop_list (g : Gen) (d : HRTrackerData) (rest : list Datum) :
  forall (fuel : nat) (start e : value) (p : Datum) (acc : list Datum),
    (List.length rest < fuel)%nat ->
    for_loop fuel collect (mkWorld g d) (FYield start e p (ItList rest)) acc
    = Some (mkWorld g
              (mkData None (_cals d)
                 (fst (traces.track start (VNum (ts p)) rest))
                 (snd (traces.track start (VNum (ts p)) rest))),
            acc ++ rest, None).
Proof.
  induction rest as [|q r IH]; intros fuel start e p acc H;
    (destruct fuel as [|k]; [simpl in H; lia|]).
  - simpl. rewrite app_nil_r. reflexivity.
  - rewrite for_loop_S. cbn [next loop iter_next]. unfold collect at 1.
    rewrite IH by (simpl in H; lia).
    simpl traces.track. rewrite <- app_assoc. reflexivity.
Qed.

(** A chunk with Samples can be iterated, once, and yields its buffer;
    the empty chunk the splitter yields for an empty source raises
    [LookupError] when iterated, its empty list being falsy. *)
Lemma chunk_pass (g : Gen) (b : list Datum) :
  b <> [] ->
  for_each collect (mkWorld g (chunk b)) []
  = Some (mkWorld g
            (mkData None (VNum (PInt 1)) (fst (traces.track VNone VNone b))
               (snd (traces.track VNone VNone b))),
          b, None).
Proof.
  destruct b as [|q r]; [contradiction|]. intros _.
  unfold for_each. rewrite for_loop_S. cbn [next loop iter_next chunk init
    _reset_times _points obj points_truthy List.length Nat.eqb negb iter_of].
  unfold collect at 1. rewrite for_loop_list by (simpl; lia). reflexivity.
Qed.

Lemma empty_chunk_pass (g : Gen) :
  for_each collect (mkWorld g (chunk [])) []
  = Some (mkWorld g (chunk []), [], Some (LookupError "points not ready")).
Proof. reflexivity. Qed.

Lemma boundaries_snoc (split_t : num) (cs : list (list Datum))
    (c1 c2 : list Datum) :
  spec.boundaries split_t (cs ++ [c1]) -> spec.follows split_t c1 c2 ->
  spec.boundaries split_t ((cs ++ [c1]) ++ [c2]).
Proof.
  intros H F. induction cs as [|a r IH]; simpl.
  - split; [exact F | exact I].
  - simpl in H. destruct (r ++ [c1]) as [|b r'] eqn:E.
    + destruct r; discriminate.
    + destruct H as [H1 H2]. simpl. split; [exact H1|]. apply IH. exact H2.
Qed.

Lemma boundaries_grow (split_t : num) (cs : list (list Datum)) (first d : Datum)
    (rest : list Datum) :
  spec.boundaries split_t (cs ++ [first :: rest]) ->
  spec.boundaries split_t (cs ++ [(first :: rest) ++ [d]]).
Proof.
  induction cs as [|a r IH]; simpl; [auto|].
  intros H. destruct r as [|b r'].
  - simpl in *. destruct H as [H _]. split; [|exact I].
    destruct a; exact H.
  - simpl in *. destruct H as [H1 H2]. split; [exact H1|]. apply IH. exact H2.
Qed.

Lemma split_body_inv (split_t : num) (s : SplitSt) (datum : Datum) :
  num_truthy (ts datum) = true ->
  split_inv split_t s ->
  exists s', split_body split_t s datum = Ok s' /\ split_inv split_t s'.
Proof.
  intros Hd (Hs & Hw & Hb). unfold split_body.
  destruct Hs as [(Hst & Hbuf & Hout) | (first & rest & Hbuf & Hst & Hf)].
  - rewrite Hst, Hbuf, Hout. simpl.
    destruct (num_ge (ts datum) (num_add (ts datum) split_t)) eqn:G;
      eexists; (split; [reflexivity|]); unfold split_inv; simpl;
      (split; [right; exists datum, []; auto|]).
    + split; [repeat constructor | repeat split].
    + split; [repeat constructor | exact I].
  - rewrite Hst. simpl. rewrite Hf. simpl.
    destruct (num_ge (ts datum) (num_add (ts first) split_t)) eqn:G;
      eexists; (split; [reflexivity|]); unfold split_inv; simpl;
      (split; [right|]).
    + exists datum, []. auto.
    + rewrite map_app. simpl. rewrite samples_chunk. split.
      * apply Forall_app. split; [exact Hw | repeat constructor].
      * apply boundaries_snoc; [exact Hb|]. rewrite Hbuf. exact G.
    + exists first, (rest ++ [datum]). rewrite Hbuf. auto.
    + rewrite Hbuf in *. split.
      * apply Forall_app in Hw. destruct Hw as [Hw1 Hw2].
        apply Forall_app. split; [exact Hw1|].
        constructor; [|constructor]. inversion Hw2 as [|? ? Hc _]; subst.
        simpl in *. apply Forall_app. split; [exact Hc|].
        constructor; [exact G | constructor].
      * apply boundaries_grow. exact Hb.
Qed.

Lemma run_split_inv (split_t : num) (d : HRTrackerData) (l : list Datum) :
  Forall (fun x => num_truthy (ts x) = true) l ->
  forall (st : SplitSt) (start e : value),
    split_inv split_t st ->
    exists w st',
      traces.run (split_body split_t) d None l start e st = (w, st', None)
      /\ split_inv split_t st'.
Proof.
  induction 1 as [|p r Hp _ IH]; intros st start e H; simpl.
  - eauto.
  - destruct (split_body_inv split_t st p Hp H) as (s' & -> & H').
    apply IH. exact H'.
Qed.

(** X10. Boundaries, for int timestamps and an int [split_at], where
    the sum and the comparison of the loop are exact: when no timestamp of
    the source is zero, no Sample inside a chunk reaches the chunk's start
    plus [split_at], and every chunk starts at or past the threshold of the
    chunk before it. *)
Lemma splitter_boundaries (split_at : Z) (l : list Datum) (c : value) :
  Forall (fun x => exists t, ts x = PInt t /\ t <> 0) l ->
  exists w cs,
    HRTrackerSplitter (PInt split_at) (of_gen (mkGen l None) c)
    = Some (w, cs, None)
    /\ Forall (spec.within (PInt split_at)) (map samples cs)
    /\ spec.boundaries (PInt split_at) (map samples cs).
Proof.
  intros Hi.
  assert (H : Forall (fun x => num_truthy (ts x) = true) l).
  { eapply Forall_impl; [|exact Hi]. intros x (t & -> & Ht). simpl.
    apply Bool.negb_true_iff, Z.eqb_neq. exact Ht. }
  unfold HRTrackerSplitter. rewrite for_each_run.
  destruct (run_split_inv (PInt split_at) (init (Some PGen) c) l H
              (mkSplit [] VNone []) VNone VNone) as (w & st' & -> & _ & Hw & Hb).
  { split; [left; auto|]. split; [repeat constructor | exact I]. }
  exists w, (out st' ++ [chunk (buf st')]). split; [reflexivity|].
  rewrite map_app. simpl. rewrite samples_chunk. split; assumption.
Qed.

(** C5, at the failing input.  The plaintext file with the two lines
    [0;;Heart rate;100] and [3600000;;Heart rate;100] decodes to Samples
    at 0.0 and 3600.0 seconds.  With [split_at = 3600] the second
    timestamp reaches the first chunk's start plus [split_at], yet the
    splitter yields one chunk holding both Samples: the start timestamp 0
    is falsy, so [if not start_t] replaces it by the second timestamp. *)
Theorem splitter_zero_start_not_split :
  let stream := ("0;;Heart rate;100" ++ nl ++ "3600000;;Heart rate;100" ++ nl)%string in
  let x0 := mkDatum (PFloat (0 # 1000)) 100 in
  let x1 := mkDatum (PFloat (3600000 # 1000)) 100 in
  producers._decode_pnn_sgt_file stream = mkGen [x0; x1] None
  /\ num_ge (ts x1) (num_add (ts x0) (PInt 3600)) = true
  /\ exists w,
       HRTrackerSplitter (PInt 3600)
         (of_gen (producers._decode_pnn_sgt_file stream) VNone)
       = Some (w, [chunk [x0; x1]], None).
Proof.
  intros stream x0 x1.
  split; [vm_compute; reflexivity|].
  split; [vm_compute; reflexivity|].
  eexists. vm_compute. reflexivity.
Qed.

(** C6, as stated, fails: the one chunk the splitter yields for a
    single Sample reads its calorie estimate as the number 1. *)
Lemma chunk_cals_unavailable_counterexample :
  let x := mkDatum (PInt 10) 100 in
  exists w,
    HRTrackerSplitter (PInt 3600) (of_gen (mkGen [x] None) VNone)
    = Some (w, [chunk [x]], None)
    /\ cals (chunk [x]) = Ok (VNum (PInt 1))
    /\ ~ (exists msg, cals (chunk [x]) = Raise (LookupError msg)).
Proof.
  intros x. eexists. split; [vm_compute; reflexivity|].
  split; [reflexivity|]. intros [msg H]. discriminate H.
Qed.

(** C6, amended.  For every wrapped stream and every [split_at] the
    splitter's pass ends, and every chunk it yields was built as
    [HRTrackerData(buf, 1)]: reading its calorie estimate succeeds and
    returns the constant 1, whatever the source held. *)
Theorem chunk_cals_is_constant_one (split_at : num) (tracker : World) :
  exists w cs e,
    HRTrackerSplitter split_at tracker = Some (w, cs, e)
    /\ Forall (fun ch => cals ch = Ok (VNum (PInt 1))) cs.
Proof.
  unfold HRTrackerSplitter.
  destruct (for_each_total (split_body split_at) tracker (mkSplit [] VNone []))
    as [[[w s] e] H].
  rewrite H.
  assert (P : Forall (fun ch => cals ch = Ok (VNum (PInt 1))) (out s)).
  { eapply (for_loop_invariant
              (fun s => Forall (fun ch => cals ch = Ok (VNum (PInt 1))) (out s)));
      [| |exact H]; [|constructor].
    intros a p a' Ha. unfold split_body.
    destruct (value_add _ split_at); [|discriminate]. simpl.
    destruct (num_ge (ts p) a0); intros E; injection E as <-; simpl; auto.
    apply Forall_app. split; [exact Ha|]. constructor; [reflexivity|constructor]. }
  destruct e as [ex|]; do 3 eexists; (split; [reflexivity|]); auto.
  apply Forall_app. split; [exact P|]. constructor; [reflexivity|constructor].
Qed.

(** ** Heart points *)

Import consumers.









(** ** Monotonicity of the score *)










(** ** The log encoder *)

(** The [tracker] setter resets the start time, the elapsed time and the
    file name, and leaves [_cals] as it was. *)
Lemma set_tracker_fields (e : PnnSgtLogfile) (t : option World) :
  log_start_time (set_tracker e t) = Raise (LookupError "start_time not ready")
  /\ elapsed_time (set_tracker e t)
     = Raise (LookupError "elapsed_time not ready")
  /\ filename (set_tracker e t) = Raise (LookupError "filename not ready")
  /\ log_cals (set_tracker e t) = log_cals e.
Proof. repeat split; reflexivity. Qed.

(** C9, at the failing input.  An encoder drains a two-Sample chunk of
    the splitter: its four derived fields read back.  After a new source
    is assigned through the [tracker] setter, [start_time], [elapsed_time]
    and [filename] raise, but [cals] still returns the value derived from
    the previous source: [_reset_vals] does not reset [_cals]. *)
Theorem rewrap_leaves_cals_readable :
  let old := of_list [mkDatum (PInt 10) 100; mkDatum (PInt 3610) 100]
               (VNum (PInt 1)) in
  let new := of_gen (mkGen [mkDatum (PInt 7200) 90] None) VNone in
  exists e,
    PnnSgtLogfile_iter (PnnSgtLogfile_init (Some old))
    = Some (e,
            [("10000;;Heart rate;100" ++ nl)%string;
             ("3610000;;Heart rate;100" ++ nl)%string],
            None)
    /\ log_start_time e = Ok (VNum (PInt 10))
    /\ elapsed_time e = Ok (VNum (PInt 3600))
    /\ log_cals e = Ok (VNum (PInt 1))
    /\ filename e
       = Ok (VStr "#date=10000#time=3600000#calories=1#type=HeartRate#spmax=0#version=4.txt")
    /\ log_start_time (set_tracker e (Some new))
       = Raise (LookupError "start_time not ready")
    /\ elapsed_time (set_tracker e (Some new))
       = Raise (LookupError "elapsed_time not ready")
    /\ filename (set_tracker e (Some new))
       = Raise (LookupError "filename not ready")
    /\ log_cals (set_tracker e (Some new)) = Ok (VNum (PInt 1)).
Proof.
  intros old new. eexists.
  split; [vm_compute; reflexivity|].
  repeat split; reflexivity.
Qed.

(** ** The plaintext decoder *)

Import producers.

(** A line that is not valid UTF-8 is skipped. *)
Lemma undecodable_skipped (line : string) :
  utf8_valid (bytes_of line) = false -> skipped line = true.
Proof. intros H. unfold skipped, xdata_of. rewrite H. reflexivity. Qed.

(** A skipped line leaves no trace in what the decoder yields or in how
    it ends. *)
Lemma decode_lines_skip (pre post : list string) (line : string) :
  skipped line = true ->
  decode_lines (pre ++ line :: post) = decode_lines (pre ++ post).
Proof.
  intros H. induction pre as [|l r IH]; simpl.
  - rewrite H. reflexivity.
  - rewrite IH. reflexivity.
Qed.

(** X20. Skipped lines have no effect: removing the lines the decoder
    skips from its input changes neither the Samples it yields nor the
    exception that ends it. *)
Lemma decode_lines_filter (ls : list string) :
  decode_lines (filter (fun l => negb (skipped l)) ls) = decode_lines ls.
Proof.
  induction ls as [|l r IH]; simpl; [reflexivity|].
  destruct (skipped l) eqn:S; simpl; [exact IH|].
  rewrite S, IH. reflexivity.
Qed.

(** C4, at the failing input.  Of three lines the second has four fields
    and [Heart rate] as its third, but its first field is not an integer.
    The decoder yields the Sample of the first line and then raises
    [ValueError]: the malformed line ends the decode and the Sample of the
    third line is never yielded. *)
Theorem malformed_number_aborts_decode :
  let stream :=
    ("1700000000000;;Heart rate;150" ++ nl
     ++ "abc;;Heart rate;151" ++ nl
     ++ "1700000001000;;Heart rate;152" ++ nl)%string in
  readlines stream
  = [("1700000000000;;Heart rate;150" ++ nl)%string;
     ("abc;;Heart rate;151" ++ nl)%string;
     ("1700000001000;;Heart rate;152" ++ nl)%string]
  /\ skipped ("abc;;Heart rate;151" ++ nl)%string = false
  /\ _decode_pnn_sgt_file stream
     = mkGen [mkDatum (PFloat (1700000000000 # 1000)) 150] (Some ValueError)
  /\ decode_lines [("1700000001000;;Heart rate;152" ++ nl)%string]
     = mkGen [mkDatum (PFloat (1700000001000 # 1000)) 152] None.
Proof. repeat split; vm_compute; reflexivity. Qed.

(** C2, at the failing input.  The plaintext decoder turns the line
    [1700000000000;;Heart rate;150] into the Sample (1700000000.0, 150).
    The encoder writes that Sample as [1700000000.0000;;Heart rate;150]:
    it appends [000] to the text of the float.  Decoding this line raises
    [ValueError] and yields no Sample. *)
Theorem roundtrip_of_decoded_sample_fails :
  let line := ("1700000000000;;Heart rate;150" ++ nl)%string in
  let x := mkDatum (PFloat (1700000000000 # 1000)) 150 in
  _decode_pnn_sgt_file line = mkGen [x] None
  /\ exists e,
       PnnSgtLogfile_iter
         (PnnSgtLogfile_init
            (Some (of_gen (_decode_pnn_sgt_file line) (VNum (PInt 1)))))
       = Some (e, [("1700000000.0000;;Heart rate;150" ++ nl)%string], None)
       /\ _decode_pnn_sgt_file ("1700000000.0000;;Heart rate;150" ++ nl)%string
          = mkGen [] (Some ValueError).
Proof.
  intros line x. split; [vm_compute; reflexivity|].
  eexists. split; vm_compute; reflexivity.
Qed.

(** ** The text of numbers *)

Lemma chars_app (a b : string) :
  list_ascii_of_string (a ++ b)
  = list_ascii_of_string a ++ list_ascii_of_string b.
Proof. induction a as [|c a IH]; simpl; [|rewrite IH]; reflexivity. Qed.

Lemma append_assoc (a b c : string) :
  ((a ++ b) ++ c)%string = (a ++ (b ++ c))%string.
Proof. induction a as [|x a IH]; simpl; [|rewrite IH]; reflexivity. Qed.

(** The characters a number is printed with: digits, the minus sign and
    the point. *)
Lemma digit_plain (c : ascii) :
  is_digit c = true ->
  is_space c = false /\ Ascii.eqb c "-" = false /\ Ascii.eqb c "+" = false
  /\ Ascii.eqb c ";" = false /\ Ascii.eqb c (ascii_of_nat 10) = false
  /\ (N_of_ascii c <? 128)%N = true.
Proof.
  destruct c as [[|] [|] [|] [|] [|] [|] [|] [|]]; intros H;
    try discriminate H; repeat split; reflexivity.
Qed.

Lemma digits_are_digits (u : Decimal.uint) :
  Forall (fun c => is_digit c = true)
    (list_ascii_of_string (NilEmpty.string_of_uint u)).
Proof. induction u; simpl; constructor; auto. Qed.

Lemma digits_nonempty (n : N) :
  list_ascii_of_string (NilEmpty.string_of_uint (N.to_uint n)) <> [].
Proof.
  destruct n as [|p]; simpl; [discriminate|].
  pose proof (DecimalPos.Unsigned.to_uint_nonnil p) as H.
  destruct (Pos.to_uint p); simpl; try discriminate. contradiction.
Qed.

Lemma fold_digits_acc (u : Decimal.uint) :
  forall acc : positive,
    fold_left (fun a c => a * 10 + digit_value c)
      (list_ascii_of_string (NilEmpty.string_of_uint u)) (Z.pos acc)
    = Z.pos (Pos.of_uint_acc u acc).
Proof.
  induction u; intros acc;
    cbn [NilEmpty.string_of_uint list_ascii_of_string fold_left
         Pos.of_uint_acc];
    [reflexivity|..];
    rewrite <- IHu; f_equal;
    match goal with
    | |- context [digit_value ?c] =>
        let v := eval vm_compute in (digit_value c) in
        change (digit_value c) with v
    end;
    lia.
Qed.

Lemma fold_digits (u : Decimal.uint) :
  fold_left (fun a c => a * 10 + digit_value c)
    (list_ascii_of_string (NilEmpty.string_of_uint u)) 0
  = Z.of_N (N.of_uint u).
Proof.
  unfold N.of_uint.
  induction u; simpl; [reflexivity | exact IHu |..];
    apply (fold_digits_acc u).
Qed.

Lemma ungroup_digits (ds : list ascii) :
  Forall (fun c => is_digit c = true) ds ->
  forall b, ds <> [] \/ b = true -> ungroup b ds = Some ds.
Proof.
  induction 1 as [|c r Hc _ IH]; intros b Hb; simpl.
  - destruct Hb as [Hb | ->]; [contradiction | reflexivity].
  - rewrite Hc, (IH true) by (right; reflexivity). reflexivity.
Qed.

Lemma ungroup_bad (c : ascii) (l : list ascii) :
  In c l -> is_digit c = false -> Ascii.eqb c "_" = false ->
  forall b, ungroup b l = None.
Proof.
  intros Hin Hd Hu. induction l as [|x r IH]; intros b; [contradiction|].
  simpl. destruct Hin as [-> | Hin].
  - rewrite Hd, Hu. reflexivity.
  - destruct (is_digit x); [rewrite (IH Hin); reflexivity|].
    destruct (Ascii.eqb x "_" && b); [apply IH; exact Hin | reflexivity].
Qed.

(** The value of a run of printed digits, alone and followed by [000]. *)
Lemma int_digits_print (n : N) (zeros : list ascii) :
  Forall (fun c => c = "0"%char) zeros ->
  int_digits
    (list_ascii_of_string (NilEmpty.string_of_uint (N.to_uint n)) ++ zeros)
  = Ok (Z.of_N n * 10 ^ Z.of_nat (List.length zeros)).
Proof.
  intros Hz. unfold int_digits.
  rewrite ungroup_digits.
  - rewrite fold_left_app, fold_digits, DecimalN.Unsigned.of_to. f_equal.
    generalize (Z.of_N n). induction Hz as [|c r -> _ IH]; intros v.
    + simpl. lia.
    + cbn [fold_left List.length]. rewrite IH.
      change (digit_value "0") with 0.
      rewrite Nat2Z.inj_succ, Z.pow_succ_r by lia. ring.
  - apply Forall_app. split; [apply digits_are_digits|].
    eapply Forall_impl; [|exact Hz]. intros c ->. reflexivity.
  - left. intros H. apply app_eq_nil in H. destruct H as [H _].
    exact (digits_nonempty n H).
Qed.

Lemma drop_space_plain (l : list ascii) :
  Forall (fun c => is_space c = false) l -> drop_space l = l.
Proof. intros H. destruct H as [|c r Hc _]; simpl; [|rewrite Hc]; reflexivity. Qed.

Lemma strip_plain (l : list ascii) :
  Forall (fun c => is_space c = false) l -> strip l = l.
Proof.
  intros H. unfold strip. rewrite (drop_space_plain l H).
  rewrite (drop_space_plain (rev l)) by (apply Forall_rev; exact H).
  apply rev_involutive.
Qed.

Lemma strip_newline (l : list ascii) :
  Forall (fun c => is_space c = false) l ->
  strip (l ++ [ascii_of_nat 10]) = l.
Proof.
  intros H. unfold strip.
  assert (E : drop_space (l ++ [ascii_of_nat 10]) = l ++ [ascii_of_nat 10]
              \/ (l = [] /\ drop_space (l ++ [ascii_of_nat 10]) = [])).
  { destruct H as [|c r Hc _]; [right; split; reflexivity|].
    left. simpl. rewrite Hc. reflexivity. }
  destruct E as [-> | [-> ->]]; [|reflexivity].
  rewrite rev_app_distr. simpl.
  rewrite (drop_space_plain (rev l)) by (apply Forall_rev; exact H).
  apply rev_involutive.
Qed.

Lemma drop_space_keeps (c : ascii) (l : list ascii) :
  In c l -> is_space c = false -> In c (drop_space l).
Proof.
  intros Hin Hc. induction l as [|x r IH]; [contradiction|].
  simpl. destruct (is_space x) eqn:E; [|exact Hin].
  destruct Hin as [-> | Hin]; [congruence | auto].
Qed.

Lemma strip_keeps (c : ascii) (l : list ascii) :
  In c l -> is_space c = false -> In c (strip l).
Proof.
  intros Hin Hc. unfold strip. apply -> in_rev.
  apply drop_space_keeps; [|exact Hc]. apply -> in_rev.
  apply drop_space_keeps; assumption.
Qed.

Lemma str_int_chars (z : Z) :
  list_ascii_of_string (str_int z)
  = (if z <? 0 then ["-"%char] else [])
    ++ list_ascii_of_string (NilEmpty.string_of_uint (N.to_uint (Z.abs_N z))).
Proof. unfold str_int. rewrite chars_app. destruct (z <? 0); reflexivity. Qed.

(** The characters of a printed int: digits after an optional minus. *)
Lemma str_int_plain (z : Z) :
  Forall (fun c => is_digit c = true \/ c = "-"%char)
    (list_ascii_of_string (str_int z)).
Proof.
  rewrite str_int_chars. apply Forall_app. split.
  - destruct (z <? 0); [|constructor].
    constructor; [right; reflexivity | constructor].
  - eapply Forall_impl; [|apply digits_are_digits]. intros c H. left; exact H.
Qed.

Lemma int_signed_print (z : Z) (zeros : list ascii) :
  Forall (fun c => c = "0"%char) zeros ->
  int_signed (list_ascii_of_string (str_int z) ++ zeros)
  = Ok (z * 10 ^ Z.of_nat (List.length zeros)).
Proof.
  intros Hz. rewrite str_int_chars.
  destruct (Z.ltb_spec z 0) as [Hneg | Hpos].
  - simpl. rewrite (int_digits_print _ _ Hz). simpl. f_equal.
    rewrite N2Z.inj_abs_N, Z.abs_neq by lia. ring.
  - simpl app at 1.
    pose proof (digits_nonempty (Z.abs_N z)) as Hne.
    pose proof (digits_are_digits (N.to_uint (Z.abs_N z))) as Hd.
    pose proof (int_digits_print (Z.abs_N z) zeros Hz) as Hv.
    destruct (list_ascii_of_string _) as [|c r]; [contradiction|].
    inversion Hd as [|? ? Hc _]; subst.
    destruct (digit_plain c Hc) as (_ & Hm & Hp & _).
    simpl. rewrite Hm, Hp. simpl in Hv. rewrite Hv. f_equal.
    rewrite N2Z.inj_abs_N, Z.abs_eq by lia. reflexivity.
Qed.

Lemma plain_not_space (c : ascii) :
  is_digit c = true \/ c = "-"%char -> is_space c = false.
Proof. intros [H | ->]; [apply (digit_plain c H) | reflexivity]. Qed.

(** [int] reads back what [str] prints, also behind [000] and before a
    newline. *)
Lemma py_int_millis (z : Z) : py_int (str_int z ++ "000") = Ok (z * 1000).
Proof.
  unfold py_int. rewrite chars_app, strip_plain.
  - exact (int_signed_print z ["0"; "0"; "0"]%char
             (Forall_cons _ eq_refl (Forall_cons _ eq_refl
                (Forall_cons _ eq_refl (Forall_nil _))))).
  - apply Forall_app. split; [|repeat constructor].
    eapply Forall_impl; [|apply str_int_plain]. exact plain_not_space.
Qed.

Lemma py_int_line_end (z : Z) : py_int (str_int z ++ nl) = Ok z.
Proof.
  unfold py_int. rewrite chars_app. simpl (list_ascii_of_string nl).
  rewrite strip_newline.
  - pose proof (int_signed_print z [] (Forall_nil _)) as H.
    rewrite app_nil_r in H. rewrite H. simpl. f_equal. lia.
  - eapply Forall_impl; [|apply str_int_plain]. exact plain_not_space.
Qed.

Lemma int_signed_bad (c : ascii) (l : list ascii) :
  In c l -> is_digit c = false -> Ascii.eqb c "_" = false ->
  Ascii.eqb c "-" = false -> Ascii.eqb c "+" = false ->
  int_signed l = Raise ValueError.
Proof.
  intros Hin Hd Hu Hm Hp.
  assert (B : forall l', In c l' -> int_digits l' = Raise ValueError).
  { intros l' H. unfold int_digits. rewrite (ungroup_bad c l' H Hd Hu).
    reflexivity. }
  destruct l as [|x r]; [contradiction|]. simpl.
  destruct (Ascii.eqb_spec x "-") as [-> | _];
    [|destruct (Ascii.eqb_spec x "+") as [-> | _]].
  - destruct Hin as [<- | Hin]; [discriminate Hm|]. rewrite (B r Hin).
    reflexivity.
  - destruct Hin as [<- | Hin]; [discriminate Hp|]. exact (B r Hin).
  - exact (B (x :: r) Hin).
Qed.

Lemma repr_float_point (q : Q) :
  In "."%char (list_ascii_of_string (repr_float q)).
Proof.
  unfold repr_float. rewrite !chars_app.
  apply in_or_app. right. apply in_or_app. right. left. reflexivity.
Qed.

(** The text of a float followed by [000] is not an integer literal. *)
Lemma py_int_float (q : Q) : py_int (repr_float q ++ "000") = Raise ValueError.
Proof.
  unfold py_int.
  apply (int_signed_bad "."%char); try reflexivity.
  apply strip_keeps; [|reflexivity].
  rewrite chars_app. apply in_or_app. left. apply repr_float_point.
Qed.

(** ** Lines of the plaintext format *)

Lemma number_char_props (c : ascii) :
  number_char c = true ->
  is_space c = false /\ Ascii.eqb c ";" = false
  /\ Ascii.eqb c (ascii_of_nat 10) = false /\ (N_of_ascii c <? 128)%N = true.
Proof.
  destruct c as [[|] [|] [|] [|] [|] [|] [|] [|]]; intros H;
    try discriminate H; repeat split; reflexivity.
Qed.

Lemma digit_char_digit (k : Z) : 0 <= k <= 9 -> is_digit (digit_char k) = true.
Proof.
  intros H.
  assert (E : k = 0 \/ k = 1 \/ k = 2 \/ k = 3 \/ k = 4 \/ k = 5 \/ k = 6
              \/ k = 7 \/ k = 8 \/ k = 9) by lia.
  repeat (destruct E as [-> | E]; [reflexivity|]). subst. reflexivity.
Qed.

Lemma frac_digits_digits (fuel : nat) :
  forall r d, 0 <= r < d ->
    Forall (fun c => is_digit c = true)
      (list_ascii_of_string (frac_digits fuel r d)).
Proof.
  induction fuel as [|k IH]; intros r d H; simpl; [constructor|].
  constructor.
  - apply digit_char_digit. split.
    + apply Z.div_pos; lia.
    + assert (r * 10 / d < 10) by (apply Z.div_lt_upper_bound; lia). lia.
  - destruct (r * 10 mod d =? 0); [constructor|].
    apply IH. apply Z.mod_pos_bound. lia.
Qed.

Lemma str_int_number (z : Z) :
  Forall (fun c => number_char c = true) (list_ascii_of_string (str_int z)).
Proof.
  eapply Forall_impl; [|apply str_int_plain].
  intros c [H | ->]; [|reflexivity]. unfold number_char. rewrite H. reflexivity.
Qed.

Lemma repr_float_number (q : Q) :
  Forall (fun c => number_char c = true) (list_ascii_of_string (repr_float q)).
Proof.
  unfold repr_float. rewrite !chars_app.
  repeat (apply Forall_app; split).
  - destruct (Qnum q <? 0); repeat constructor.
  - apply str_int_number.
  - repeat constructor.
  - eapply Forall_impl; [|apply frac_digits_digits].
    + intros c H. unfold number_char. rewrite H. reflexivity.
    + apply Z.mod_pos_bound. lia.
Qed.

Lemma str_num_number (n : num) :
  Forall (fun c => number_char c = true) (list_ascii_of_string (str_num n)).
Proof. destruct n; [apply str_int_number | apply repr_float_number]. Qed.

Lemma utf8_valid_ascii (bs : list N) :
  Forall (fun b => (b <? 128)%N = true) bs -> utf8_valid bs = true.
Proof. induction 1 as [|b r Hb _ IH]; simpl; [|rewrite Hb]; auto. Qed.

Lemma split_sep_head (sep : ascii) (b : string) :
  split sep (String sep b) = EmptyString :: split sep b.
Proof. simpl. rewrite Ascii.eqb_refl. reflexivity. Qed.

Lemma split_app_sep (sep : ascii) (a b : string) :
  Forall (fun c => Ascii.eqb c sep = false) (list_ascii_of_string a) ->
  split sep (a ++ String sep b) = a :: split sep b.
Proof.
  induction a as [|c a IH]; intros H.
  - apply split_sep_head.
  - inversion H as [|? ? Hc Ha]; subst. simpl. rewrite Hc, (IH Ha). reflexivity.
Qed.

Lemma split_nosep (sep : ascii) (a : string) :
  Forall (fun c => Ascii.eqb c sep = false) (list_ascii_of_string a) ->
  split sep a = [a].
Proof.
  induction a as [|c a IH]; intros H; [reflexivity|].
  inversion H as [|? ? Hc Ha]; subst. simpl. rewrite Hc, (IH Ha). reflexivity.
Qed.

(** A line [t000;;Heart rate;h] plus newline, where [t] and [h] are
    printed numbers: it is text, and it has the four fields. *)
Lemma line_is_text (t h : string) :
  Forall (fun c => number_char c = true) (list_ascii_of_string t) ->
  Forall (fun c => number_char c = true) (list_ascii_of_string h) ->
  xdata_of (t ++ "000;;Heart rate;" ++ h ++ nl)
  = (t ++ "000;;Heart rate;" ++ h ++ nl)%string.
Proof.
  intros Ht Hh. unfold xdata_of. rewrite utf8_valid_ascii; [reflexivity|].
  unfold bytes_of. rewrite !chars_app, !map_app.
  repeat (apply Forall_app; split).
  - apply Forall_map. eapply Forall_impl; [|exact Ht].
    intros c H. apply (number_char_props c H).
  - repeat constructor.
  - apply Forall_map. eapply Forall_impl; [|exact Hh].
    intros c H. apply (number_char_props c H).
  - repeat constructor.
Qed.

Lemma line_fields (t h : string) :
  Forall (fun c => number_char c = true) (list_ascii_of_string t) ->
  Forall (fun c => number_char c = true) (list_ascii_of_string h) ->
  split ";" (t ++ "000;;Heart rate;" ++ h ++ nl)
  = [(t ++ "000")%string; EmptyString; "Heart rate"; (h ++ nl)%string].
Proof.
  intros Ht Hh.
  change (t ++ "000;;Heart rate;" ++ h ++ nl)%string
    with (t ++ ("000" ++ String ";" (String ";"
                  ("Heart rate" ++ String ";" (h ++ nl)))))%string.
  rewrite <- append_assoc.
  rewrite split_app_sep, split_sep_head, split_app_sep, split_nosep.
  - reflexivity.
  - rewrite chars_app. apply Forall_app. split; [|repeat constructor].
    eapply Forall_impl; [|exact Hh]. intros c H. apply (number_char_props c H).
  - repeat constructor.
  - rewrite chars_app. apply Forall_app. split; [|repeat constructor].
    eapply Forall_impl; [|exact Ht]. intros c H. apply (number_char_props c H).
Qed.

Lemma encoded_line_not_skipped (x : Datum) : skipped (encode_line x) = false.
Proof.
  unfold skipped, encode_line.
  rewrite line_is_text, line_fields
    by (apply str_num_number || apply str_int_number).
  reflexivity.
Qed.

Lemma encoded_line_datum (x : Datum) :
  datum_of (encode_line x)
  = (ms <- py_int (str_num (ts x) ++ "000") ;;
     Ok (mkDatum (PFloat (inject_Z ms / 1000)) (hr x))).
Proof.
  unfold datum_of, encode_line.
  rewrite line_is_text, line_fields
    by (apply str_num_number || apply str_int_number).
  cbn [nth]. rewrite py_int_line_end.
  destruct (py_int _); reflexivity.
Qed.

(** Re-decoding the line of a Sample with an int timestamp gives the
    Sample back, its timestamp now the float [t * 1000 / 1000]. *)
Lemma int_line_roundtrip (t h : Z) :
  skipped (encode_line (mkDatum (PInt t) h)) = false
  /\ datum_of (encode_line (mkDatum (PInt t) h))
     = Ok (mkDatum (PFloat (inject_Z (t * 1000) / 1000)) h).
Proof.
  split; [apply encoded_line_not_skipped|].
  rewrite encoded_line_datum. simpl. rewrite py_int_millis. reflexivity.
Qed.

(** Re-decoding the line of a Sample with a float timestamp raises
    [ValueError]. *)
Lemma float_line_raises (q : Q) (h : Z) :
  skipped (encode_line (mkDatum (PFloat q) h)) = false
  /\ datum_of (encode_line (mkDatum (PFloat q) h)) = Raise ValueError.
Proof.
  split; [apply encoded_line_not_skipped|].
  rewrite encoded_line_datum. simpl. rewrite py_int_float. reflexivity.
Qed.

(** ** Encoding a stream and decoding it again *)

Lemma readlines_line (body rest : string) :
  Forall (fun c => Ascii.eqb c (ascii_of_nat 10) = false)
    (list_ascii_of_string body) ->
  readlines (body ++ nl ++ rest) = (body ++ nl)%string :: readlines rest.
Proof.
  induction body as [|c b IH]; intros H; [reflexivity|].
  inversion H as [|? ? Hc Hb]; subst.
  cbn [String.append readlines]. rewrite Hc, (IH Hb). reflexivity.
Qed.

Lemma encode_line_body (x : Datum) :
  exists body,
    encode_line x = (body ++ nl)%string
    /\ Forall (fun c => Ascii.eqb c (ascii_of_nat 10) = false)
         (list_ascii_of_string body).
Proof.
  exists (str_num (ts x) ++ "000;;Heart rate;" ++ str_int (hr x))%string.
  split.
  - unfold encode_line. rewrite !append_assoc. reflexivity.
  - rewrite !chars_app. repeat (apply Forall_app; split).
    + eapply Forall_impl; [|apply str_num_number].
      intros c H. apply (number_char_props c H).
    + repeat constructor.
    + eapply Forall_impl; [|apply str_int_number].
      intros c H. apply (number_char_props c H).
Qed.

(** Joined and read again line by line, the encoder's lines are the
    same lines. *)
Lemma readlines_join (l : list Datum) :
  readlines (join (map encode_line l)) = map encode_line l.
Proof.
  induction l as [|x r IH]; [reflexivity|].
  cbn [map join fold_right].
  destruct (encode_line_body x) as (body & -> & Hb).
  rewrite append_assoc, (readlines_line body _ Hb). f_equal. exact IH.
Qed.

Lemma num_eq_millis (t : Z) :
  num_eq (PInt t) (PFloat (inject_Z (t * 1000) / 1000)).
Proof.
  unfold num_eq. simpl. unfold Qeq, Qdiv, Qmult, Qinv, inject_Z. simpl. lia.
Qed.

Lemma decode_int_lines (l : list Datum) :
  Forall int_timestamp l ->
  exists l',
    decode_lines (map encode_line l) = mkGen l' None
    /\ Forall2 same_sample l l'.
Proof.
  induction 1 as [|x r [t Ht] _ (r' & IH & HR)].
  - exists []. split; [reflexivity | constructor].
  - destruct x as [tsx h]. simpl in Ht. subst tsx.
    destruct (int_line_roundtrip t h) as [Hs Hd].
    exists (mkDatum (PFloat (inject_Z (t * 1000) / 1000)) h :: r').
    split.
    + cbn [map decode_lines]. rewrite Hs, Hd, IH. reflexivity.
    + constructor; [|exact HR]. split; [apply num_eq_millis | reflexivity].
Qed.

Lemma decode_float_lines (pre post : list Datum) (q : Q) (h : Z) :
  Forall int_timestamp pre ->
  exists pre',
    decode_lines (map encode_line (pre ++ mkDatum (PFloat q) h :: post))
    = mkGen pre' (Some ValueError)
    /\ Forall2 same_sample pre pre'.
Proof.
  induction 1 as [|x r [t Ht] _ (r' & IH & HR)].
  - exists []. split; [|constructor].
    destruct (float_line_raises q h) as [Hs Hd].
    cbn [app map decode_lines]. rewrite Hs, Hd. reflexivity.
  - destruct x as [tsx hx]. simpl in Ht. subst tsx.
    destruct (int_line_roundtrip t hx) as [Hs Hd].
    exists (mkDatum (PFloat (inject_Z (t * 1000) / 1000)) hx :: r').
    split.
    + cbn [app map decode_lines]. rewrite Hs, Hd.
      cbn [app map] in IH. rewrite IH. reflexivity.
    + constructor; [|exact HR]. split; [apply num_eq_millis | reflexivity].
Qed.

Lemma run_log (d : HRTrackerData) (l : list Datum) :
  forall (s e : value) (has_pt : bool) (lines : list string),
    exists w,
      traces.run log_body d None l s e (has_pt, lines)
      = (w, (has_pt || negb (Nat.eqb (List.length l) 0),
             lines ++ map encode_line l), None).
Proof.
  induction l as [|x r IH]; intros s e has_pt lines.
  - eexists. simpl. rewrite orb_false_r, app_nil_r. reflexivity.
  - cbn [traces.run].
    change (log_body (has_pt, lines) x)
      with (@Ok (bool * list string) (true, lines ++ [encode_line x])).
    cbv beta iota.
    destruct (IH (if negb (truthy s) then VNum (ts x) else s) (VNum (ts x))
                true (lines ++ [encode_line x])) as (w & ->).
    exists w. simpl. rewrite orb_true_r, <- app_assoc. reflexivity.
Qed.

(** The encoder yields one line per Sample of a stream that ends
    normally, whatever becomes of the derived fields afterwards. *)
Lemma encoder_lines (l : list Datum) (c : value) :
  exists e ex,
    PnnSgtLogfile_iter (PnnSgtLogfile_init (Some (of_gen (mkGen l None) c)))
    = Some (e, map encode_line l, ex).
Proof.
  unfold PnnSgtLogfile_iter, PnnSgtLogfile_init. cbn [_tracker].
  rewrite for_each_run.
  destruct (run_log (init (Some PGen) c) l VNone VNone false []) as (w & ->).
  cbn [app].
  destruct (false || negb (Nat.eqb (List.length l) 0)); [|eauto].
  destruct (derive _ _) as [e' ex]. eauto.
Qed.

(** X22. Round trip for int timestamps of magnitude at most 2^53, which
    a float holds exactly: the encoder's output decodes to the same
    Samples, the timestamps now floats of the same value. *)
Lemma roundtrip_int_timestamps (l : list Datum) (c : value) :
  Forall (fun x => exists t, ts x = PInt t /\ Z.abs t <= 2 ^ 53) l ->
  exists e ex lines l',
    PnnSgtLogfile_iter (PnnSgtLogfile_init (Some (of_gen (mkGen l None) c)))
    = Some (e, lines, ex)
    /\ _decode_pnn_sgt_file (join lines) = mkGen l' None
    /\ Forall2 same_sample l l'.
Proof.
  intros Hb.
  assert (H : Forall int_timestamp l).
  { eapply Forall_impl; [|exact Hb]. intros x (t & Ht & _). exists t. exact Ht. }
  destruct (encoder_lines l c) as (e & ex & E).
  destruct (decode_int_lines l H) as (l' & D & S).
  exists e, ex, (map encode_line l), l'. split; [exact E|].
  unfold _decode_pnn_sgt_file. rewrite readlines_join. split; assumption.
Qed.

(** X30. No round trip for a float timestamp: after Samples with int
    timestamps of magnitude at most 2^53, the decode of the encoder's
    output ends with [ValueError] at the first Sample with a float
    timestamp. *)
Lemma roundtrip_float_timestamp (pre post : list Datum) (q : Q) (h : Z)
    (c : value) :
  Forall (fun x => exists t, ts x = PInt t /\ Z.abs t <= 2 ^ 53) pre ->
  exists e ex lines pre',
    PnnSgtLogfile_iter
      (PnnSgtLogfile_init
         (Some (of_gen (mkGen (pre ++ mkDatum (PFloat q) h :: post) None) c)))
    = Some (e, lines, ex)
    /\ _decode_pnn_sgt_file (join lines) = mkGen pre' (Some ValueError)
    /\ Forall2 same_sample pre pre'.
Proof.
  intros Hb.
  assert (H : Forall int_timestamp pre).
  { eapply Forall_impl; [|exact Hb]. intros x (t & Ht & _). exists t. exact Ht. }
  destruct (encoder_lines (pre ++ mkDatum (PFloat q) h :: post) c)
    as (e & ex & E).
  destruct (decode_float_lines pre post q h H) as (pre' & D & S).
  exists e, ex, (map encode_line (pre ++ mkDatum (PFloat q) h :: post)), pre'.
  split; [exact E|].
  unfold _decode_pnn_sgt_file. rewrite readlines_join. split; assumption.
Qed.

(** * Further properties *)

(** ** Complete passes over a container *)

Lemma run_pure {A : Type} (f : A -> Datum -> A)
    (body : A -> Datum -> result A) (d : HRTrackerData) (fin : option Exn) :
  (forall a p, body a p = Ok (f a p)) ->
  forall (l : list Datum) (s e : value) (acc : A),
    traces.run body d fin l s e acc
    = (mkWorld (mkGen [] None)
         (match fin with
          | None =>
              mkData None (types._cals d) (fst (traces.track s e l))
                (snd (traces.track s e l))
          | Some _ => d
          end),
       fold_left f l acc, fin).
Proof.
  intros Hb. induction l as [|p r IH]; intros s e acc; simpl.
  - destruct fin; reflexivity.
  - rewrite Hb. apply IH.
Qed.

Lemma fold_collect (l acc : list Datum) :
  fold_left (fun a p => a ++ [p]) l acc = acc ++ l.
Proof.
  revert acc. induction l as [|p r IH]; intros acc; simpl.
  - rewrite app_nil_r. reflexivity.
  - rewrite IH, <- app_assoc. reflexivity.
Qed.

(** A pass hands out the items of the generator in order. *)
Lemma pass_collect (l : list Datum) (fin : option Exn) (c : value) :
  for_each collect (of_gen (mkGen l fin) c) []
  = Some (mkWorld (mkGen [] None)
            (match fin with
             | None => obj (traces.drained c l)
             | Some _ => init (Some PGen) c
             end),
          l, fin).
Proof.
  rewrite for_each_run.
  rewrite (run_pure (fun a p => a ++ [p]) collect) by reflexivity.
  rewrite fold_collect. reflexivity.
Qed.

Lemma track_start_kept (s e : value) (l : list Datum) :
  truthy s = true -> fst (traces.track s e l) = s.
Proof.
  revert s e. induction l as [|p r IH]; intros s e H; simpl; [reflexivity|].
  rewrite H. simpl. apply IH. exact H.
Qed.

Lemma last_cons {A : Type} (l : list A) :
  forall a d, last (a :: l) d = last l a.
Proof.
  induction l as [|b r IH]; intros a d; [reflexivity|].
  change (last (a :: b :: r) d) with (last (b :: r) d).
  rewrite !IH. reflexivity.
Qed.

Lemma track_end_last (x : Datum) (r : list Datum) :
  forall s e, snd (traces.track s e (x :: r)) = VNum (ts (last r x)).
Proof.
  revert x. induction r as [|y r IH]; intros x s e; [reflexivity|].
  change (traces.track s e (x :: y :: r))
    with (traces.track (if negb (truthy s) then VNum (ts x) else s)
            (VNum (ts x)) (y :: r)).
  rewrite IH, last_cons. reflexivity.
Qed.

Lemma track_falsy (l : list Datum) :
  Forall (fun x => num_truthy (ts x) = false) l ->
  forall s e, truthy s = false -> truthy e = false ->
    truthy (fst (traces.track s e l)) = false
    /\ truthy (snd (traces.track s e l)) = false.
Proof.
  induction 1 as [|p r Hp _ IH]; intros s e Hs He; simpl; [auto|].
  rewrite Hs. simpl. apply IH; exact Hp.
Qed.

(** X1. A complete pass over a stream whose first timestamp is not zero
    hands out every Sample in order and records as start time the
    timestamp of the first Sample and as end time that of the last one,
    whatever the order of the timestamps in between; the end time reads
    back unless it is zero. *)
Theorem pass_records_first_and_last (x : Datum) (r : list Datum) (c : value) :
  num_truthy (ts x) = true ->
  exists w,
    for_each collect (of_gen (mkGen (x :: r) None) c) [] = Some (w, x :: r, None)
    /\ start_time (obj w) = Ok (VNum (ts x))
    /\ end_time (obj w)
       = utils.deferred_value "end_time" (VNum (ts (last r x)))
    /\ types._points (obj w) = None.
Proof.
  intros H. eexists. split; [apply pass_collect|].
  unfold traces.drained, start_time, end_time. cbn [obj types._start types._end
    types._points].
  rewrite track_end_last. simpl traces.track. rewrite track_start_kept by exact H.
  unfold utils.deferred_value at 1. simpl truthy. rewrite H.
  repeat split; reflexivity.
Qed.

Lemma pass_records_first_and_last_witness :
  exists w,
    for_each collect
      (of_gen (mkGen [mkDatum (PInt 20) 100; mkDatum (PInt 30) 110;
                      mkDatum (PInt 10) 120] None) VNone) []
    = Some (w, [mkDatum (PInt 20) 100; mkDatum (PInt 30) 110;
                mkDatum (PInt 10) 120], None)
    /\ start_time (obj w) = Ok (VNum (PInt 20))
    /\ end_time (obj w) = Ok (VNum (PInt 10)).
Proof.
  destruct (pass_records_first_and_last (mkDatum (PInt 20) 100)
              [mkDatum (PInt 30) 110; mkDatum (PInt 10) 120] VNone eq_refl)
    as (w & Hp & Hs & He & _).
  exists w. split; [exact Hp|]. split; [exact Hs | exact He].
Defined.

(** X2. When the generator raises after some Samples, the pass hands out
    those Samples and raises the same exception; the times stay
    unavailable and the calorie estimate is untouched.  The container
    still holds the dead generator: a second pass yields nothing and
    completes without an error, leaving the times unavailable. *)
Theorem failed_pass_then_silent_pass (l : list Datum) (e : Exn) (c : value) :
  exists w w2,
    for_each collect (of_gen (mkGen l (Some e)) c) [] = Some (w, l, Some e)
    /\ start_time (obj w) = Raise (LookupError "start_time not ready")
    /\ end_time (obj w) = Raise (LookupError "end_time not ready")
    /\ types.cals (obj w) = utils.deferred_value "cals" c
    /\ for_each collect w [] = Some (w2, [], None)
    /\ types._points (obj w2) = None
    /\ start_time (obj w2) = Raise (LookupError "start_time not ready")
    /\ end_time (obj w2) = Raise (LookupError "end_time not ready").
Proof.
  do 2 eexists. split; [apply pass_collect|].
  repeat split; reflexivity.
Qed.

(** X3. After a complete pass over a stream that is empty or whose
    timestamps are all zero, [start_time] and [end_time] still raise
    [LookupError]: the recorded values are [None] or zero, which the
    getters take for unavailable. *)
Theorem zero_timestamps_stay_unavailable (l : list Datum) (c : value) :
  Forall (fun x => num_truthy (ts x) = false) l ->
  exists w,
    for_each collect (of_gen (mkGen l None) c) [] = Some (w, l, None)
    /\ types._points (obj w) = None
    /\ start_time (obj w) = Raise (LookupError "start_time not ready")
    /\ end_time (obj w) = Raise (LookupError "end_time not ready").
Proof.
  intros H. eexists. split; [apply pass_collect|].
  destruct (track_falsy l H VNone VNone eq_refl eq_refl) as [Hs He].
  split; [reflexivity|].
  unfold start_time, end_time, traces.drained.
  cbn [obj types._start types._end].
  split; apply deferred_value_falsy; assumption.
Qed.

Lemma zero_timestamps_stay_unavailable_witness :
  exists w,
    for_each collect
      (of_gen (mkGen [mkDatum (PInt 0) 100; mkDatum (PFloat 0) 110] None)
         VNone) []
    = Some (w, [mkDatum (PInt 0) 100; mkDatum (PFloat 0) 110], None)
    /\ types._points (obj w) = None
    /\ start_time (obj w) = Raise (LookupError "start_time not ready")
    /\ end_time (obj w) = Raise (LookupError "end_time not ready").
Proof.
  apply (zero_timestamps_stay_unavailable
           [mkDatum (PInt 0) 100; mkDatum (PFloat 0) 110] VNone).
  repeat constructor.
Defined.

(** X4. A chunk that holds Samples can be iterated exactly once: the pass
    hands out its buffer, and a further pass raises [LookupError] at the
    first request and hands out nothing. *)
Theorem chunk_iterates_once (g : Gen) (x : Datum) (r : list Datum) :
  exists w,
    for_each collect (mkWorld g (chunk (x :: r))) [] = Some (w, x :: r, None)
    /\ types.cals (obj w) = Ok (VNum (PInt 1))
    /\ for_each collect w []
       = Some (w, [], Some (LookupError "points not ready")).
Proof.
  eexists. split; [apply chunk_pass; discriminate|].
  split; reflexivity.
Qed.

(** ** The filter *)

Import filters.

Lemma for_loop_ext {A : Type} (b1 b2 : A -> Datum -> result A) :
  (forall a p, b1 a p = b2 a p) ->
  forall (fuel : nat) (w : World) (f : Frame) (acc : A),
    for_loop fuel b1 w f acc = for_loop fuel b2 w f acc.
Proof.
  intros H. induction fuel as [|k IH]; intros w f acc; [reflexivity|].
  rewrite !for_loop_S. destruct (next w f) as [[w' f'] o].
  destruct o; try reflexivity. rewrite H. destruct (b2 acc p); auto.
Qed.

Lemma in_range_both (a b c d : Z) (p : Datum) :
  in_range a b p && in_range c d p = in_range (Z.max a c) (Z.min b d) p.
Proof.
  unfold in_range.
  destruct (Z.leb_spec a (hr p)), (Z.leb_spec (hr p) b),
    (Z.leb_spec c (hr p)), (Z.leb_spec (hr p) d),
    (Z.leb_spec (Z.max a c) (hr p)), (Z.leb_spec (hr p) (Z.min b d));
    simpl; try reflexivity; lia.
Qed.

Lemma fold_filter (lo hi : Z) (l acc : list Datum) :
  fold_left (fun a p => if in_range lo hi p then a ++ [p] else a) l acc
  = acc ++ filter (in_range lo hi) l.
Proof.
  revert acc. induction l as [|p r IH]; intros acc; simpl.
  - rewrite app_nil_r. reflexivity.
  - rewrite IH. destruct (in_range lo hi p); [|reflexivity].
    rewrite <- app_assoc. reflexivity.
Qed.

Lemma filter_pass (hr_min hr_max : Z) (l : list Datum) (fin : option Exn)
    (c : value) :
  HRTrackerFilter hr_min hr_max collect (of_gen (mkGen l fin) c) []
  = Some (mkWorld (mkGen [] None)
            (match fin with
             | None => obj (traces.drained c l)
             | Some _ => init (Some PGen) c
             end),
          filter (in_range hr_min hr_max) l, fin).
Proof.
  unfold HRTrackerFilter. rewrite for_each_run.
  rewrite (run_pure (fun a p => if in_range hr_min hr_max p then a ++ [p]
                                else a))
    by (intros a p; unfold filter_body, collect;
        destruct (in_range hr_min hr_max p); reflexivity).
  rewrite fold_filter. reflexivity.
Qed.

(** X5. Iterating a filter over a stream hands out exactly the Samples
    whose heart rate lies in [[hr_min, hr_max]], bounds included, in the
    order of the source, and ends the way the source ends.  After a
    completed pass the wrapped container has recorded the times of all
    the Samples pulled through it, the rejected ones included. *)
Theorem filter_yields_samples_in_range (hr_min hr_max : Z) (l : list Datum)
    (fin : option Exn) (c : value) :
  exists w,
    HRTrackerFilter hr_min hr_max collect (of_gen (mkGen l fin) c) []
    = Some (w, filter (in_range hr_min hr_max) l, fin)
    /\ Forall (fun p => hr_min <= hr p <= hr_max)
         (filter (in_range hr_min hr_max) l)
    /\ (fin = None -> w = traces.drained c l).
Proof.
  eexists. split; [|split].
  - apply filter_pass.
  - apply Forall_forall. intros p Hp. apply filter_In in Hp.
    destruct Hp as [_ Hp]. unfold in_range in Hp.
    apply andb_true_iff in Hp. destruct Hp as [H1 H2].
    apply Z.leb_le in H1. apply Z.leb_le in H2. lia.
  - intros ->. reflexivity.
Qed.

(** X6. A filter wrapped in a filter acts as one filter over the
    intersection of the two ranges, for every source and every consumer;
    in particular filtering twice with the same bounds is filtering
    once. *)
Theorem filter_of_filter {A : Type} (a b c d : Z)
    (body : A -> Datum -> result A) (tracker : World) (acc : A) :
  HRTrackerFilter a b (filter_body c d body) tracker acc
  = HRTrackerFilter (Z.max a c) (Z.min b d) body tracker acc
  /\ HRTrackerFilter a b (filter_body a b body) tracker acc
     = HRTrackerFilter a b body tracker acc.
Proof.
  unfold HRTrackerFilter, for_each. split; apply for_loop_ext; intros x p;
    unfold filter_body.
  - rewrite <- in_range_both.
    destruct (in_range a b p), (in_range c d p); reflexivity.
  - destruct (in_range a b p); reflexivity.
Qed.

(** X7. The times read through a filter are those of the wrapped
    container: when the first Sample of the source is out of range, the
    filter never hands it out, yet after the pass [start_time] is that
    Sample's timestamp. *)
Theorem filter_times_count_rejected_samples (hr_min hr_max : Z) (x : Datum)
    (r : list Datum) (c : value) :
  in_range hr_min hr_max x = false ->
  num_truthy (ts x) = true ->
  exists w items,
    HRTrackerFilter hr_min hr_max collect (of_gen (mkGen (x :: r) None) c) []
    = Some (w, items, None)
    /\ ~ In x items
    /\ start_time (obj w) = Ok (VNum (ts x)).
Proof.
  intros Hx Ht.
  exists (traces.drained c (x :: r)), (filter (in_range hr_min hr_max) (x :: r)).
  split; [exact (filter_pass hr_min hr_max (x :: r) None c)|]. split.
  - intros Hin. apply filter_In in Hin. destruct Hin as [_ Hin]. congruence.
  - unfold traces.drained, start_time. cbn [obj types._start].
    simpl traces.track. rewrite track_start_kept by exact Ht.
    unfold utils.deferred_value. simpl truthy. rewrite Ht. reflexivity.
Qed.

Lemma filter_times_count_rejected_samples_witness :
  exists w items,
    HRTrackerFilter 100 220 collect
      (of_gen (mkGen [mkDatum (PInt 10) 90; mkDatum (PInt 20) 120] None) VNone)
      []
    = Some (w, items, None)
    /\ ~ In (mkDatum (PInt 10) 90) items
    /\ start_time (obj w) = Ok (VNum (PInt 10)).
Proof.
  exact (filter_times_count_rejected_samples 100 220 (mkDatum (PInt 10) 90)
           [mkDatum (PInt 20) 120] VNone eq_refl eq_refl).
Defined.

Lemma run_filter {A : Type} (lo hi : Z) (body : A -> Datum -> result A)
    (d : HRTrackerData) (fin : option Exn) (l : list Datum) :
  forall (s e s' e' : value) (acc : A),
    snd (fst (traces.run (filter_body lo hi body) d fin l s e acc))
    = snd (fst (traces.run body d fin (filter (in_range lo hi) l) s' e' acc))
    /\ snd (traces.run (filter_body lo hi body) d fin l s e acc)
       = snd (traces.run body d fin (filter (in_range lo hi) l) s' e' acc).
Proof.
  induction l as [|p r IH]; intros s e s' e' acc.
  - simpl. destruct fin; split; reflexivity.
  - simpl. unfold filter_body at 1 3. destruct (in_range lo hi p).
    + simpl. destruct (body acc p); [apply IH | split; reflexivity].
    + apply IH.
Qed.

Lemma run_world_ok {A : Type} (body : A -> Datum -> result A)
    (d : HRTrackerData) (l : list Datum) :
  forall (s e : value) (acc : A),
    snd (traces.run body d None l s e acc) = None ->
    fst (fst (traces.run body d None l s e acc))
    = mkWorld (mkGen [] None)
        (mkData None (types._cals d) (fst (traces.track s e l))
           (snd (traces.track s e l))).
Proof.
  induction l as [|p r IH]; intros s e acc; simpl; [reflexivity|].
  destruct (body acc p); [apply IH | discriminate].
Qed.

(** ** The scoring rule in binary64 *)

Lemma rule_zone_from_snoc (cs : list binary64.double)
    (c avg : binary64.double) :
  forall i,
    rule.zone_from i (cs ++ [c]) avg
    = if binary64.ge avg c then Some (i + List.length cs)%nat
      else rule.zone_from i cs avg.
Proof.
  induction cs as [|a r IH]; intros i; simpl.
  - rewrite Nat.add_0_r. reflexivity.
  - rewrite IH. destruct (binary64.ge avg c).
    + f_equal. lia.
    + reflexivity.
Qed.

Lemma score_scan_app (cs cs' : list binary64.double)
    (avg nmins : binary64.double) (n : nat) :
  (n <= List.length cs)%nat ->
  scoring.scan_cats (cs ++ cs') avg nmins n = scoring.scan_cats cs avg nmins n.
Proof.
  induction n as [|k IH]; intros H; simpl; [reflexivity|].
  rewrite nth_error_app1 by lia.
  destruct (nth_error cs k); [|reflexivity].
  destruct (binary64.ge avg d); [reflexivity|]. apply IH. lia.
Qed.

(** The downward scan of [_points_for_pair] finds the highest zone. *)
Lemma score_scan_zone (cs : list binary64.double)
    (avg nmins : binary64.double) :
  scoring.scan_cats cs avg nmins (List.length cs)
  = match rule.zone cs avg with
    | Some z => binary64.mul_int nmins (Z.of_nat z + 1)
    | None => Ok binary64.zero
    end.
Proof.
  unfold rule.zone.
  induction cs as [|c r IH] using rev_ind; [reflexivity|].
  rewrite length_app, Nat.add_comm. simpl.
  rewrite nth_error_app2, Nat.sub_diag by lia. simpl.
  rewrite rule_zone_from_snoc.
  destruct (binary64.ge avg c); [reflexivity|].
  rewrite score_scan_app by lia. exact IH.
Qed.

Lemma score_init_shape (hr_max pm ph px : value)
    (cfg : scoring.HeartPointConfig) :
  scoring.HeartPointConfig_init hr_max pm ph px = Ok cfg ->
  Z.to_nat (scoring._last_off cfg + 1) = List.length (scoring._cutoffs cfg)
  /\ List.length (scoring._cutoffs cfg) = 3%nat.
Proof.
  unfold scoring.HeartPointConfig_init, scoring.get_cutoffs.
  destruct (scoring._check_hr_max hr_max) as [h|]; [|discriminate].
  destruct (scoring._check_pct pm) as [a|]; [|discriminate].
  destruct (scoring._check_pct ph) as [b|]; [|discriminate].
  destruct (scoring._check_pct px) as [c|]; [|discriminate].
  cbn [bind].
  destruct (scoring.cutoff h a); [|discriminate].
  destruct (scoring.cutoff h b); [|discriminate].
  destruct (scoring.cutoff h c); [|discriminate].
  cbn [bind]. intros H. injection H as <-. split; reflexivity.
Qed.

Lemma score_pair_rule (cfg : scoring.HeartPointConfig) (x0 x1 : Datum) :
  Z.to_nat (scoring._last_off cfg + 1) = List.length (scoring._cutoffs cfg) ->
  scoring._points_for_pair cfg x0 x1
  = rule.pair_points (scoring._cutoffs cfg) x0 x1.
Proof.
  intros H. unfold scoring._points_for_pair, rule.pair_points.
  rewrite H, (Z.add_comm (hr x1) (hr x0)).
  destruct (binary64.sub_div (ts x1) (ts x0) 60) as [m|]; [|reflexivity].
  destruct (binary64.truediv (hr x0 + hr x1) 2) as [a|]; [|reflexivity].
  cbn [bind]. apply score_scan_zone.
Qed.

(** The loop of [heart_points] from its second Sample on accumulates the
    sum of the rule, or stops at the first pair that raises. *)
Lemma score_run (cfg : scoring.HeartPointConfig) (d : HRTrackerData) :
  Z.to_nat (scoring._last_off cfg + 1) = List.length (scoring._cutoffs cfg) ->
  forall (l : list Datum) (np : binary64.double) (x0 : Datum) (s e : value),
    match rule.total_from (scoring._cutoffs cfg) np (x0 :: l) with
    | Ok t =>
        scoring.npoints
          (snd (fst (traces.run (scoring.hp_body cfg) d None l s e
                       (scoring.mkHp np (Some x0) _nextval)))) = t
        /\ snd (traces.run (scoring.hp_body cfg) d None l s e
                  (scoring.mkHp np (Some x0) _nextval)) = None
    | Raise ex =>
        snd (traces.run (scoring.hp_body cfg) d None l s e
               (scoring.mkHp np (Some x0) _nextval)) = Some ex
    end.
Proof.
  intros H. induction l as [|x1 r IH]; intros np x0 s e.
  - simpl. split; reflexivity.
  - cbn [rule.total_from]. simpl traces.run. unfold scoring.hp_body at 1 3 5.
    cbn [scoring._vfunc scoring.oldval scoring.npoints].
    rewrite (score_pair_rule cfg x0 x1 H).
    destruct (rule.pair_points (scoring._cutoffs cfg) x0 x1) as [p|ex];
      cbn [bind]; [|reflexivity].
    apply IH.
Qed.

(** The same from the first Sample on. *)
Lemma score_pass (cfg : scoring.HeartPointConfig) (d : HRTrackerData) :
  Z.to_nat (scoring._last_off cfg + 1) = List.length (scoring._cutoffs cfg) ->
  forall (l : list Datum) (s e : value),
    match rule.total (scoring._cutoffs cfg) l with
    | Ok t =>
        scoring.npoints
          (snd (fst (traces.run (scoring.hp_body cfg) d None l s e
                       (scoring.mkHp binary64.zero None _firstval)))) = t
        /\ snd (traces.run (scoring.hp_body cfg) d None l s e
                  (scoring.mkHp binary64.zero None _firstval)) = None
    | Raise ex =>
        snd (traces.run (scoring.hp_body cfg) d None l s e
               (scoring.mkHp binary64.zero None _firstval)) = Some ex
    end.
Proof.
  intros H l s e. destruct l as [|x0 r]; [split; reflexivity|].
  unfold rule.total. simpl traces.run.
  apply (score_run cfg d H r binary64.zero x0).
Qed.

(** What [heart_points] returns for a generator that ends normally. *)
Lemma score_result (cfg : scoring.HeartPointConfig) (l : list Datum)
    (c : value) :
  Z.to_nat (scoring._last_off cfg + 1) = List.length (scoring._cutoffs cfg) ->
  exists w,
    scoring.heart_points cfg (of_gen (mkGen l None) c)
    = Some (w,
            t <- rule.total (scoring._cutoffs cfg) l ;;
            scoring.report (obj (traces.drained c l)) t)
    /\ (forall t,
          rule.total (scoring._cutoffs cfg) l = Ok t ->
          w = traces.drained c l).
Proof.
  intros H. unfold scoring.heart_points. rewrite for_each_run.
  pose proof (score_pass cfg (init (Some PGen) c) H l VNone VNone) as P.
  pose proof (run_world_ok (scoring.hp_body cfg) (init (Some PGen) c) l
                VNone VNone (scoring.mkHp binary64.zero None _firstval)) as Hw.
  destruct (traces.run (scoring.hp_body cfg) _ None l _ _ _) as [[w s] ex].
  cbn [fst snd] in P, Hw.
  destruct (rule.total (scoring._cutoffs cfg) l) as [t|e0].
  - destruct P as [<- ->]. rewrite (Hw eq_refl). eexists. split; [reflexivity|].
    intros _ _. reflexivity.
  - subst ex. exists w. split; [reflexivity|]. discriminate.
Qed.

(** The same through a filter: the rule is applied to the Samples in
    range. *)
Lemma score_filter_result (cfg : scoring.HeartPointConfig)
    (hr_min hr_max : Z) (l : list Datum) (c : value) :
  Z.to_nat (scoring._last_off cfg + 1) = List.length (scoring._cutoffs cfg) ->
  exists w,
    scoring.heart_points_filter cfg hr_min hr_max (of_gen (mkGen l None) c)
    = Some (w,
            t <- rule.total (scoring._cutoffs cfg)
                   (filter (filters.in_range hr_min hr_max) l) ;;
            scoring.report (obj (traces.drained c l)) t)
    /\ (forall t,
          rule.total (scoring._cutoffs cfg)
            (filter (filters.in_range hr_min hr_max) l) = Ok t ->
          w = traces.drained c l).
Proof.
  intros H. unfold scoring.heart_points_filter, filters.HRTrackerFilter.
  rewrite for_each_run.
  pose proof (score_pass cfg (init (Some PGen) c) H
                (filter (filters.in_range hr_min hr_max) l) VNone VNone) as P.
  pose proof (run_filter hr_min hr_max (scoring.hp_body cfg)
                (init (Some PGen) c) None l VNone VNone VNone VNone
                (scoring.mkHp binary64.zero None _firstval)) as [Ha He].
  pose proof (run_world_ok
                (filters.filter_body hr_min hr_max (scoring.hp_body cfg))
                (init (Some PGen) c) l VNone VNone
                (scoring.mkHp binary64.zero None _firstval)) as Hw.
  rewrite <- Ha, <- He in P.
  destruct (traces.run (filters.filter_body hr_min hr_max (scoring.hp_body cfg))
              _ None l _ _ _) as [[w s] ex].
  cbn [fst snd] in P, Hw.
  destruct (rule.total (scoring._cutoffs cfg)
              (filter (filters.in_range hr_min hr_max) l)) as [t|e0].
  - destruct P as [<- ->]. rewrite (Hw eq_refl). eexists. split; [reflexivity|].
    intros _ _. reflexivity.
  - subst ex. exists w. split; [reflexivity|]. discriminate.
Qed.

(** Comparison of doubles is transitive. *)
Lemma ge_trans (a b c : binary64.double) :
  binary64.ge a b = true -> binary64.ge b c = true -> binary64.ge a c = true.
Proof.
  unfold binary64.ge, SFleb, SFcompare.
  destruct a as [sa|sa| |sa ma ea]; destruct b as [sb|sb| |sb mb eb];
    destruct c as [sc|sc| |sc mc ec];
    try destruct sa; try destruct sb; try destruct sc;
    try reflexivity; try discriminate;
    change (Pos.compare_cont Eq) with Pos.compare;
    destruct (Z.compare_spec eb ea); destruct (Z.compare_spec ec eb);
    destruct (Z.compare_spec ec ea); try lia;
    try reflexivity; try discriminate; subst;
    destruct (Pos.compare_spec mb ma); destruct (Pos.compare_spec mc mb);
    destruct (Pos.compare_spec mc ma); simpl; try lia;
    try reflexivity; try discriminate.
Qed.

(** With ascending cutoffs an average below the first one reaches no
    zone. *)
Lemma zone_none_ascending (avg : binary64.double) :
  forall (cs : list binary64.double) (c0 : binary64.double) (i : nat),
    rule.ascending (c0 :: cs) ->
    binary64.ge avg c0 = false ->
    rule.zone_from i (c0 :: cs) avg = None.
Proof.
  induction cs as [|c1 r IH]; intros c0 i Ha Hb.
  - simpl. rewrite Hb. reflexivity.
  - destruct Ha as [H01 Hr].
    assert (H1 : binary64.ge avg c1 = false).
    { destruct (binary64.ge avg c1) eqn:E; [|reflexivity].
      rewrite (ge_trans avg c1 c0 E H01) in Hb. discriminate. }
    change (rule.zone_from i (c0 :: c1 :: r) avg)
      with (match rule.zone_from (S i) (c1 :: r) avg with
            | Some z => Some z
            | None => if binary64.ge avg c0 then Some i else None
            end).
    rewrite (IH c1 (S i) Hr H1), Hb. reflexivity.
Qed.

Lemma zone_none_all (avg : binary64.double) :
  forall (cs : list binary64.double) (i : nat),
    Forall (fun c => binary64.ge avg c = false) cs ->
    rule.zone_from i cs avg = None.
Proof.
  induction cs as [|c r IH]; intros i H; [reflexivity|].
  inversion H as [|? ? Hc Hr]; subst. simpl. rewrite (IH (S i) Hr), Hc.
  reflexivity.
Qed.

(** [round] goes to a nearest integer, and to the even one at a tie. *)
Lemma py_round_nearest (q : Q) :
  (- (1 # 2) <= inject_Z (py_round q) - q <= 1 # 2)%Q
  /\ ((inject_Z (py_round q) - q == 1 # 2)%Q
      \/ (inject_Z (py_round q) - q == - (1 # 2))%Q ->
      Z.even (py_round q) = true).
Proof.
  pose proof (Qfloor_le q) as Hl. pose proof (Qlt_floor q) as Hu.
  assert (E1 : (inject_Z (Qfloor q + 1) == inject_Z (Qfloor q) + 1)%Q)
    by (rewrite inject_Z_plus; reflexivity).
  unfold py_round.
  destruct (Qcompare_spec (q - inject_Z (Qfloor q)) (1 # 2)) as [E | L | G].
  - destruct (Z.even (Qfloor q)) eqn:Ev.
    + split; [lra|]. intros _. exact Ev.
    + split; [lra|]. intros _. rewrite Z.even_add, Ev. reflexivity.
  - split; [lra|]. intros [H | H]; lra.
  - split; [lra|]. intros [H | H]; lra.
Qed.

Lemma zone_from_none (avg : binary64.double) :
  forall (cs : list binary64.double) (i : nat),
    rule.zone_from i cs avg = None ->
    Forall (fun c => binary64.ge avg c = false) cs.
Proof.
  induction cs as [|c r IH]; intros i H; [constructor|].
  simpl in H. destruct (rule.zone_from (S i) r avg) eqn:E; [discriminate|].
  destruct (binary64.ge avg c) eqn:G; [discriminate|].
  constructor; [exact G | exact (IH (S i) E)].
Qed.

(** [zone_from] gives the highest index whose cutoff the average
    reaches. *)
Lemma zone_from_highest (avg : binary64.double) :
  forall (cs : list binary64.double) (i z : nat),
    rule.zone_from i cs avg = Some z <->
    (i <= z)%nat
    /\ (exists cz, nth_error cs (z - i) = Some cz /\ binary64.ge avg cz = true)
    /\ (forall k ck,
          (z - i < k)%nat -> nth_error cs k = Some ck ->
          binary64.ge avg ck = false).
Proof.
  induction cs as [|c r IH]; intros i z.
  - simpl. split; [discriminate|].
    intros (_ & (cz & H & _) & _). destruct (z - i)%nat; discriminate.
  - simpl rule.zone_from. split.
    + destruct (rule.zone_from (S i) r avg) as [z'|] eqn:E.
      * intros H. injection H as ->.
        apply IH in E. destruct E as (Hi & (cz & Hz & Hg) & Hh).
        split; [lia|]. split.
        -- exists cz. split; [|exact Hg].
           replace (z - i)%nat with (S (z - S i)) by lia. exact Hz.
        -- intros k ck Hk Hn. destruct k as [|k]; [lia|].
           apply (Hh k ck); [lia | exact Hn].
      * destruct (binary64.ge avg c) eqn:G; [|discriminate].
        intros H. injection H as <-.
        split; [lia|]. rewrite Nat.sub_diag. split.
        -- exists c. split; [reflexivity | exact G].
        -- intros k ck Hk Hn. destruct k as [|k]; [lia|].
           pose proof (zone_from_none avg r (S i) E) as F.
           rewrite Forall_forall in F. apply F.
           exact (nth_error_In r k Hn).
    + intros (Hi & (cz & Hz & Hg) & Hh).
      destruct (Nat.eq_dec z i) as [-> | Hne].
      * rewrite Nat.sub_diag in Hz, Hh. injection Hz as ->.
        rewrite (zone_none_all avg r (S i)), Hg; [reflexivity|].
        apply Forall_forall. intros x Hx.
        destruct (In_nth_error r x Hx) as [k Hk].
        apply (Hh (S k) x); [lia | exact Hk].
      * assert (E : rule.zone_from (S i) r avg = Some z).
        { apply IH. split; [lia|]. split.
          - exists cz. split; [|exact Hg].
            replace (z - i)%nat with (S (z - S i)) in Hz by lia. exact Hz.
          - intros k ck Hk Hn. apply (Hh (S k) ck); [lia | exact Hn]. }
        rewrite E. reflexivity.
Qed.

(** C7, as stated, fails in its clause [0 if below the moderate cutoff]:
    the constructor accepts the fractions 0.9, 0.5, 0.6, whose cutoffs for
    [hr_max = 200] are 180, 100 and 120; two Samples ten minutes apart at
    110 bpm average 110, below the moderate cutoff 180, and score 20. *)
Lemma heart_points_below_moderate_counterexample :
  let l := [mkDatum (PInt 10) 110; mkDatum (PInt 610) 110] in
  exists cfg moderate average,
    scoring.HeartPointConfig_init (VNum (PInt 200)) (VNum (PFloat (9 # 10)))
      (VNum (PFloat (5 # 10))) (VNum (PFloat (6 # 10))) = Ok cfg
    /\ scoring._cutoffs cfg
       = [binary64.of_Q 180; binary64.of_Q 100; binary64.of_Q 120]
    /\ nth_error (scoring._cutoffs cfg) 0 = Some moderate
    /\ binary64.truediv (110 + 110) 2 = Ok average
    /\ binary64.ge average moderate = false
    /\ scoring.heart_points cfg (of_gen (mkGen l None) VNone)
       = Some (traces.drained VNone l,
               Ok (mkHPO (VNum (PInt 10)) (VNum (PInt 610)) 20
                     (VNum (PInt 0)))).
Proof.
  intros l. do 3 eexists.
  split; [vm_compute; reflexivity|].
  split; [vm_compute; reflexivity|].
  split; [vm_compute; reflexivity|].
  split; [vm_compute; reflexivity|].
  split; vm_compute; reflexivity.
Qed.

(** C7, amended.  For a configuration that passed validation and a
    stream that ends normally, [heart_points] returns the record whose
    points are the scoring rule of the specification, computed in Python's
    float arithmetic: for each consecutive pair the elapsed minutes
    [(x1.ts - x0.ts) / 60] and the average heart rate [(x0.hr + x1.hr) / 2],
    the elapsed minutes times (highest zone index whose cutoff the average
    reaches, plus 1), and 0 when the average is below every cutoff, which
    with ascending cutoffs means below the moderate one; the contributions
    added in stream order, and the sum rounded once at the end, to a
    nearest integer and at a tie to the even one.  A pair whose arithmetic
    overflows ends the call with that exception.  With [hr_max = 220] and
    the fractions 0.6, 0.7, 0.85 the cutoffs are 132, 154 and 187, and the
    two Samples (0, 160) and (600, 160) score 20. *)
Theorem heart_points_scores_consecutive_pairs (hr_max pm ph px : value)
    (cfg : scoring.HeartPointConfig) (l : list Datum) (c : value) :
  scoring.HeartPointConfig_init hr_max pm ph px = Ok cfg ->
  let cs := scoring._cutoffs cfg in
  (exists w,
     scoring.heart_points cfg (of_gen (mkGen l None) c)
     = Some (w,
             t <- rule.total cs l ;;
             st <- start_time (obj (traces.drained c l)) ;;
             en <- end_time (obj (traces.drained c l)) ;;
             p <- binary64.round t ;;
             cv <- utils.try_get_value
                     (types.cals (obj (traces.drained c l))) (VNum (PInt 0)) ;;
             Ok (mkHPO st en p cv))
     /\ (forall t, rule.total cs l = Ok t -> w = traces.drained c l))
  /\ (forall average z,
        rule.zone cs average = Some z <->
        (exists cz, nth_error cs z = Some cz /\ binary64.ge average cz = true)
        /\ (forall k ck,
              (z < k)%nat -> nth_error cs k = Some ck ->
              binary64.ge average ck = false))
  /\ (forall average,
        Forall (fun cz => binary64.ge average cz = false) cs
        \/ (rule.ascending cs
            /\ exists moderate,
                 nth_error cs 0 = Some moderate
                 /\ binary64.ge average moderate = false) ->
        rule.zone cs average = None)
  /\ (forall t v,
        binary64.to_Q t = Some v ->
        exists p,
          binary64.round t = Ok p
          /\ (- (1 # 2) <= inject_Z p - v <= 1 # 2)%Q
          /\ ((inject_Z p - v == 1 # 2)%Q \/ (inject_Z p - v == - (1 # 2))%Q ->
              Z.even p = true))
  /\ exists cfg0,
       scoring.HeartPointConfig_init (VNum (PInt 220)) (VNum (PFloat (6 # 10)))
         (VNum (PFloat (7 # 10))) (VNum (PFloat (85 # 100))) = Ok cfg0
       /\ scoring._cutoffs cfg0
          = [binary64.of_Q 132; binary64.of_Q 154; binary64.of_Q 187]
       /\ scoring.heart_points cfg0
            (of_gen (mkGen [mkDatum (PInt 0) 160; mkDatum (PInt 600) 160] None)
               VNone)
          = Some (traces.drained VNone
                    [mkDatum (PInt 0) 160; mkDatum (PInt 600) 160],
                  Ok (mkHPO (VNum (PInt 600)) (VNum (PInt 600)) 20
                        (VNum (PInt 0)))).
Proof.
  intros H cs. destruct (score_init_shape _ _ _ _ _ H) as [Hs _].
  split; [exact (score_result cfg l c Hs)|]. split.
  { intros average z. unfold rule.zone.
    rewrite (zone_from_highest average cs 0 z), Nat.sub_0_r.
    split.
    - intros (_ & Hz & Hh). split; [exact Hz | exact Hh].
    - intros (Hz & Hh). split; [lia|]. split; [exact Hz | exact Hh]. }
  split.
  { intros average [Hall | (Hasc & moderate & Hm & Hb)].
    - apply zone_none_all. exact Hall.
    - unfold rule.zone. destruct cs as [|c0 r]; [reflexivity|].
      injection Hm as ->. apply zone_none_ascending; assumption. }
  split.
  { intros t v Hv. destruct t as [s|s| |s m e]; try discriminate.
    - injection Hv as <-. exists 0. split; [reflexivity|].
      split; [split; discriminate|]. intros _. reflexivity.
    - unfold binary64.round. rewrite Hv. exists (py_round v).
      split; [reflexivity|]. apply py_round_nearest. }
  eexists. split; [vm_compute; reflexivity|].
  split; vm_compute; reflexivity.
Qed.

Lemma heart_points_scores_consecutive_pairs_witness :
  let cfg :=
    scoring.mkConfig
      [binary64.of_Q 132; binary64.of_Q 154; binary64.of_Q 187] 2 in
  let l := map (fun i => mkDatum (PInt (9 * Z.of_nat i)) 140) (seq 1 11) in
  scoring.heart_points cfg (of_gen (mkGen l None) VNone)
  = Some (traces.drained VNone l,
          Ok (mkHPO (VNum (PInt 9)) (VNum (PInt 99)) 1 (VNum (PInt 0)))).
Proof.
  intros cfg l.
  destruct (heart_points_scores_consecutive_pairs (VNum (PInt 220))
              (VNum (PFloat (6 # 10))) (VNum (PFloat (7 # 10)))
              (VNum (PFloat (85 # 100))) cfg l VNone)
    as [(w & H & Hw) _]; [vm_compute; reflexivity|].
  rewrite H, (Hw (S754_finite false 6755399441055743 (-52))).
  - vm_compute. reflexivity.
  - vm_compute. reflexivity.
Defined.

(** X8. Scoring a filtered workout scores the Samples in range as one
    stream: consecutive pairs are formed among the survivors, so the time
    across rejected Samples is scored with the average of the
    neighbouring survivors, while the start and end reported are those of
    the unfiltered stream. *)
Theorem heart_points_of_filter (hr_max_cfg pm ph px : value)
    (cfg : scoring.HeartPointConfig) (hr_min hr_max : Z) (l : list Datum)
    (c : value) :
  scoring.HeartPointConfig_init hr_max_cfg pm ph px = Ok cfg ->
  exists w,
    scoring.heart_points_filter cfg hr_min hr_max (of_gen (mkGen l None) c)
    = Some (w,
            t <- rule.total (scoring._cutoffs cfg)
                   (filter (in_range hr_min hr_max) l) ;;
            st <- start_time (obj (traces.drained c l)) ;;
            en <- end_time (obj (traces.drained c l)) ;;
            p <- binary64.round t ;;
            cv <- utils.try_get_value
                    (types.cals (obj (traces.drained c l))) (VNum (PInt 0)) ;;
            Ok (mkHPO st en p cv))
    /\ (forall t,
          rule.total (scoring._cutoffs cfg)
            (filter (in_range hr_min hr_max) l) = Ok t ->
          w = traces.drained c l).
Proof.
  intros H. destruct (score_init_shape _ _ _ _ _ H) as [Hs _].
  exact (score_filter_result cfg hr_min hr_max l c Hs).
Qed.

Lemma heart_points_of_filter_witness :
  let cfg :=
    scoring.mkConfig
      [binary64.of_Q 132; binary64.of_Q 154; binary64.of_Q 187] 2 in
  let l :=
    [mkDatum (PInt 60) 160; mkDatum (PInt 360) 90; mkDatum (PInt 660) 160] in
  scoring.heart_points_filter cfg 100 220 (of_gen (mkGen l None) VNone)
  = Some (traces.drained VNone l,
          Ok (mkHPO (VNum (PInt 60)) (VNum (PInt 660)) 20 (VNum (PInt 0)))).
Proof.
  intros cfg l.
  destruct (heart_points_of_filter (VNum (PInt 220))
              (VNum (PFloat (6 # 10))) (VNum (PFloat (7 # 10)))
              (VNum (PFloat (85 # 100))) cfg 100 220 l VNone)
    as (w & H & Hw); [vm_compute; reflexivity|].
  rewrite H, (Hw (binary64.of_Q 20)).
  - vm_compute. reflexivity.
  - vm_compute. reflexivity.
Defined.

(** ** The configuration *)







(** ** The splitter: shape of the chunks, and a failing source *)






Lemma splitter_boundaries_witness :
  exists w cs,
    HRTrackerSplitter (PInt 3600)
      (of_gen (mkGen [mkDatum (PInt 10) 100; mkDatum (PInt 3609) 100;
                      mkDatum (PInt 3610) 100; mkDatum (PInt 20) 100] None)
         VNone)
    = Some (w, cs, None)
    /\ Forall (spec.within (PInt 3600)) (map samples cs)
    /\ spec.boundaries (PInt 3600) (map samples cs).
Proof.
  apply (splitter_boundaries 3600
           [mkDatum (PInt 10) 100; mkDatum (PInt 3609) 100;
            mkDatum (PInt 3610) 100; mkDatum (PInt 20) 100] VNone).
  repeat constructor; eexists; (split; [reflexivity | discriminate]).
Defined.

(** ** Heart points: streams with fewer than two Samples *)

(** X14. Streams with fewer than two Samples.  On an empty stream
    [heart_points] raises [LookupError] for the start time.  On a single
    Sample it returns 0 points with start and end both at that Sample's
    timestamp, and as calories the stream's estimate or 0 when there is
    none; when that timestamp is zero it raises instead. *)
Theorem heart_points_short_streams (cfg : HeartPointConfig) (x : Datum)
    (c : value) :
  heart_points cfg (of_gen (mkGen [] None) c)
  = Some (traces.drained c [], Raise (LookupError "start_time not ready"))
  /\ heart_points cfg (of_gen (mkGen [x] None) c)
     = Some (traces.drained c [x],
             if num_truthy (ts x)
             then Ok (mkHPO (VNum (ts x)) (VNum (ts x)) 0
                        (if truthy c then c else VNum (PInt 0)))
             else Raise (LookupError "start_time not ready")).
Proof.
  split; unfold heart_points; rewrite for_each_run; [reflexivity|].
  simpl traces.run. unfold traces.drained. simpl traces.track.
  cbn [fst snd obj]. unfold start_time, end_time, types.cals.
  cbn [types._start types._end types._cals init _reset_times].
  unfold utils.deferred_value. simpl truthy.
  destruct (num_truthy (ts x)); [|reflexivity].
  destruct (truthy c); reflexivity.
Qed.

(** ** The log encoder: lines and derived fields *)

Lemma fold_log (l : list Datum) :
  forall (has_pt : bool) (lines : list string),
    fold_left (fun (s : bool * list string) p => (true, snd s ++ [encode_line p]))
      l (has_pt, lines)
    = (has_pt || negb (Nat.eqb (List.length l) 0), lines ++ map encode_line l).
Proof.
  induction l as [|x r IH]; intros has_pt lines; simpl.
  - rewrite orb_false_r, app_nil_r. reflexivity.
  - rewrite IH. simpl. rewrite orb_true_r, <- app_assoc. reflexivity.
Qed.

(** The pass of an encoder over a stream that ends normally. *)
Lemma encoder_pass (l : list Datum) (c : value) :
  PnnSgtLogfile_iter (PnnSgtLogfile_init (Some (of_gen (mkGen l None) c)))
  = match l with
    | [] =>
        Some (mkLog (Some (traces.drained c l)) VNone VNone VNone VNone,
              [], None)
    | _ :: _ =>
        let (e, ex) :=
          derive (mkLog (Some (traces.drained c l)) VNone VNone VNone VNone)
            (obj (traces.drained c l)) in
        Some (e, map encode_line l, ex)
    end.
Proof.
  unfold PnnSgtLogfile_iter, PnnSgtLogfile_init. cbn [_tracker].
  rewrite for_each_run.
  rewrite (run_pure (fun (s : bool * list string) p =>
                       (true, snd s ++ [encode_line p])) log_body)
    by reflexivity.
  rewrite fold_log. destruct l; reflexivity.
Qed.

(** X18. An encoder over a stream that ends normally yields one line per
    Sample, in order.  Every line has exactly four fields between
    semicolons, the second empty, the third [Heart rate], the last ending
    in a newline, and the plaintext decoder does not skip it. *)
Theorem encoder_line_grammar (l : list Datum) (c : value) :
  exists e ex lines,
    PnnSgtLogfile_iter (PnnSgtLogfile_init (Some (of_gen (mkGen l None) c)))
    = Some (e, lines, ex)
    /\ List.length lines = List.length l
    /\ Forall (fun line =>
                 skipped line = false
                 /\ exists t h,
                      split ";" line
                      = [t; EmptyString; "Heart rate"; (h ++ nl)%string])
         lines.
Proof.
  destruct (encoder_lines l c) as (e & ex & E).
  exists e, ex, (map encode_line l). split; [exact E|].
  split; [apply length_map|].
  apply Forall_map. apply Forall_forall. intros x _.
  split; [apply encoded_line_not_skipped|].
  exists (str_num (ts x) ++ "000")%string, (str_int (hr x)).
  unfold encode_line. apply line_fields;
    [apply str_num_number | apply str_int_number].
Qed.




(** Sources without Samples.  An encoder over an empty generator
    yields no line, raises nothing and derives no field.  The splitter
    turns an empty source into one empty chunk, and an encoder over that
    chunk raises [LookupError] at the first request: the chunk's empty
    list is falsy. *)
Theorem encoder_on_empty_sources (split_at : num) (g : Gen) (c : value) :
  PnnSgtLogfile_iter (PnnSgtLogfile_init (Some (of_gen (mkGen [] None) c)))
  = Some (mkLog (Some (traces.drained c [])) VNone VNone VNone VNone, [], None)
  /\ HRTrackerSplitter split_at (of_gen (mkGen [] None) c)
     = Some (traces.drained c [], [chunk []], None)
  /\ PnnSgtLogfile_iter (PnnSgtLogfile_init (Some (mkWorld g (chunk []))))
     = Some (PnnSgtLogfile_init (Some (mkWorld g (chunk []))), [],
             Some (LookupError "points not ready")).
Proof. repeat split; reflexivity. Qed.

Lemma encoder_int_pass (t0 tn k h0 : Z) (r : list Datum) :
  t0 <> 0 -> tn <> 0 -> k <> 0 ->
  ts (last r (mkDatum (PInt t0) h0)) = PInt tn ->
  let l := mkDatum (PInt t0) h0 :: r in
  let name :=
    ("#date=" ++ str_int t0 ++ "000#" ++ "time=" ++ str_int (tn - t0)
     ++ "000#" ++ "calories=" ++ str_int k ++ "#"
     ++ "type=HeartRate#spmax=0#version=4.txt")%string in
  PnnSgtLogfile_iter
    (PnnSgtLogfile_init (Some (of_gen (mkGen l None) (VNum (PInt k)))))
  = Some (mkLog (Some (traces.drained (VNum (PInt k)) l)) (VNum (PInt t0))
            (VNum (PInt (tn - t0))) (VNum (PInt k)) (VStr name),
          map encode_line l, None).
Proof.
  intros H0 Hn Hk Hl l name.
  assert (T0 : (t0 =? 0) = false) by (apply Z.eqb_neq; exact H0).
  assert (Tn : (tn =? 0) = false) by (apply Z.eqb_neq; exact Hn).
  assert (Tk : (k =? 0) = false) by (apply Z.eqb_neq; exact Hk).
  assert (Es : fst (traces.track VNone VNone l) = VNum (PInt t0)).
  { unfold l. simpl traces.track.
    apply track_start_kept. simpl. rewrite T0. reflexivity. }
  assert (Ee : snd (traces.track VNone VNone l) = VNum (PInt tn)).
  { unfold l. rewrite track_end_last, Hl. reflexivity. }
  unfold l at 1. rewrite encoder_pass. fold l. unfold derive.
  unfold start_time, end_time, types.cals, traces.drained.
  cbn [obj types._start types._end types._cals].
  rewrite Es, Ee.
  unfold utils.deferred_value. simpl truthy. rewrite T0, Tn, Tk. simpl.
  reflexivity.
Qed.

(** X21. The derived fields for int timestamps.  After an encoder has
    drained a stream whose first timestamp [t0], last timestamp [tn] and
    calorie estimate [k] are non-zero ints, its start time is [t0], its
    elapsed time [tn - t0], its calories [k] and its file name
    [#date=<t0>000#time=<tn - t0>000#calories=<k>#type=HeartRate#spmax=0#version=4.txt];
    when [tn = t0], as for a single Sample, the elapsed time 0 does not
    read back. *)
Theorem encoder_fields_for_int_stream (t0 tn k h0 : Z) (r : list Datum) :
  t0 <> 0 -> tn <> 0 -> k <> 0 ->
  ts (last r (mkDatum (PInt t0) h0)) = PInt tn ->
  let l := mkDatum (PInt t0) h0 :: r in
  let name :=
    ("#date=" ++ str_int t0 ++ "000#" ++ "time=" ++ str_int (tn - t0)
     ++ "000#" ++ "calories=" ++ str_int k ++ "#"
     ++ "type=HeartRate#spmax=0#version=4.txt")%string in
  let e :=
    mkLog (Some (traces.drained (VNum (PInt k)) l)) (VNum (PInt t0))
      (VNum (PInt (tn - t0))) (VNum (PInt k)) (VStr name) in
  PnnSgtLogfile_iter
    (PnnSgtLogfile_init (Some (of_gen (mkGen l None) (VNum (PInt k)))))
  = Some (e, map encode_line l, None)
  /\ log_start_time e = Ok (VNum (PInt t0))
  /\ log_cals e = Ok (VNum (PInt k))
  /\ filename e = Ok (VStr name)
  /\ elapsed_time e
     = if tn - t0 =? 0 then Raise (LookupError "elapsed_time not ready")
       else Ok (VNum (PInt (tn - t0))).
Proof.
  intros H0 Hn Hk Hl l name e.
  assert (T0 : (t0 =? 0) = false) by (apply Z.eqb_neq; exact H0).
  assert (Tk : (k =? 0) = false) by (apply Z.eqb_neq; exact Hk).
  split.
  - exact (encoder_int_pass t0 tn k h0 r H0 Hn Hk Hl).
  - unfold log_start_time, log_cals, filename, elapsed_time,
      utils.deferred_value. simpl. rewrite T0, Tk.
    repeat split; try reflexivity.
    destruct (tn - t0 =? 0); reflexivity.
Qed.

Lemma encoder_fields_for_int_stream_witness :
  PnnSgtLogfile_iter
    (PnnSgtLogfile_init
       (Some (of_gen (mkGen [mkDatum (PInt 10) 100; mkDatum (PInt 70) 110]
                        None) (VNum (PInt 1)))))
  = Some (mkLog
            (Some (traces.drained (VNum (PInt 1))
                     [mkDatum (PInt 10) 100; mkDatum (PInt 70) 110]))
            (VNum (PInt 10)) (VNum (PInt 60)) (VNum (PInt 1))
            (VStr "#date=10000#time=60000#calories=1#type=HeartRate#spmax=0#version=4.txt"),
          map encode_line [mkDatum (PInt 10) 100; mkDatum (PInt 70) 110],
          None).
Proof.
  refine (proj1 (encoder_fields_for_int_stream 10 70 1 100
                   [mkDatum (PInt 70) 110] _ _ _ eq_refl));
    discriminate.
Defined.

Lemma roundtrip_int_timestamps_witness :
  exists e ex lines l',
    PnnSgtLogfile_iter
      (PnnSgtLogfile_init
         (Some (of_gen (mkGen [mkDatum (PInt 10) 100; mkDatum (PInt (-5)) 110]
                          None) (VNum (PInt 1)))))
    = Some (e, lines, ex)
    /\ _decode_pnn_sgt_file (join lines) = mkGen l' None
    /\ Forall2 same_sample
         [mkDatum (PInt 10) 100; mkDatum (PInt (-5)) 110] l'.
Proof.
  apply (roundtrip_int_timestamps
           [mkDatum (PInt 10) 100; mkDatum (PInt (-5)) 110] (VNum (PInt 1))).
  repeat constructor; eexists; (split; [reflexivity | discriminate]).
Defined.

Lemma roundtrip_float_timestamp_witness :
  exists e ex lines pre',
    PnnSgtLogfile_iter
      (PnnSgtLogfile_init
         (Some (of_gen
                  (mkGen ([mkDatum (PInt 10) 100]
                          ++ mkDatum (PFloat (25 # 2)) 110
                             :: [mkDatum (PInt 20) 120]) None)
                  (VNum (PInt 1)))))
    = Some (e, lines, ex)
    /\ _decode_pnn_sgt_file (join lines) = mkGen pre' (Some ValueError)
    /\ Forall2 same_sample [mkDatum (PInt 10) 100] pre'.
Proof.
  apply (roundtrip_float_timestamp [mkDatum (PInt 10) 100]
           [mkDatum (PInt 20) 120] (25 # 2) 110 (VNum (PInt 1))).
  repeat constructor. eexists; (split; [reflexivity | discriminate]).
Defined.

(** ** The plaintext decoder: composition *)

(** X23. Decoding is sequential: the decode of two runs of lines is the
    decode of the first followed by the decode of the second, unless the
    first ends in an exception, and then nothing of the second is
    decoded. *)
Theorem decode_lines_app (a b : list string) :
  decode_lines (a ++ b)
  = match g_fin (decode_lines a) with
    | None =>
        mkGen (g_items (decode_lines a) ++ g_items (decode_lines b))
          (g_fin (decode_lines b))
    | Some _ => decode_lines a
    end.
Proof.
  induction a as [|line r IH]; simpl.
  - destruct (decode_lines b); reflexivity.
  - destruct (skipped line); [exact IH|].
    destruct (datum_of line); [|reflexivity].
    rewrite IH. simpl. destruct (g_fin (decode_lines r)) eqn:E; simpl.
    + rewrite E. reflexivity.
    + reflexivity.
Qed.

Lemma py_int_str_int (z : Z) : py_int (str_int z) = Ok z.
Proof.
  unfold py_int. rewrite strip_plain.
  - pose proof (int_signed_print z [] (Forall_nil _)) as H.
    rewrite app_nil_r in H. rewrite H. simpl. f_equal. lia.
  - eapply Forall_impl; [|apply str_int_plain]. exact plain_not_space.
Qed.

(** ** The calorie value in the file name *)

Lemma number_char_not_hash (c : ascii) :
  number_char c = true -> Ascii.eqb c "#" = false.
Proof.
  destruct c as [[|] [|] [|] [|] [|] [|] [|] [|]]; intros H;
    try discriminate H; reflexivity.
Qed.

Lemma match_here_no_hash (c : ascii) (r : list ascii) :
  Ascii.eqb c "#" = false -> calories.match_here (c :: r) = None.
Proof.
  intros H. unfold calories.match_here.
  cbn [list_ascii_of_string calories.strip_prefix].
  rewrite Ascii.eqb_sym, H. reflexivity.
Qed.

Lemma search_skip (pre l : list ascii) :
  Forall (fun c => Ascii.eqb c "#" = false) pre ->
  calories.search (pre ++ l) = calories.search l.
Proof.
  induction 1 as [|c r Hc _ IH]; [reflexivity|].
  cbn [app calories.search]. rewrite (match_here_no_hash c _ Hc). exact IH.
Qed.

Lemma search_cons_skip (c : ascii) (l : list ascii) :
  Ascii.eqb c "#" = false -> calories.search (c :: l) = calories.search l.
Proof.
  intros H. cbn [calories.search]. rewrite (match_here_no_hash c l H).
  reflexivity.
Qed.

(** A [#] that starts another field of the name is passed over. *)
Lemma search_other_field (c : ascii) (r : list ascii) :
  Ascii.eqb "c" c = false ->
  calories.search ("#"%char :: c :: r) = calories.search (c :: r).
Proof.
  intros H. cbn [calories.search].
  assert (E : calories.match_here ("#"%char :: c :: r) = None).
  { unfold calories.match_here.
    cbn [list_ascii_of_string calories.strip_prefix].
    rewrite Ascii.eqb_refl, H. reflexivity. }
  rewrite E. reflexivity.
Qed.

Lemma strip_prefix_app (p l : list ascii) :
  calories.strip_prefix p (p ++ l) = Some l.
Proof.
  induction p as [|c r IH]; simpl; [reflexivity|].
  rewrite Ascii.eqb_refl. exact IH.
Qed.

Lemma digits_run_digits (ds l : list ascii) (c : ascii) :
  Forall (fun x => is_digit x = true) ds ->
  is_digit c = false ->
  calories.digits_run (ds ++ c :: l) = (ds, c :: l).
Proof.
  intros Hd Hc. induction Hd as [|x r Hx _ IH]; simpl.
  - rewrite Hc. reflexivity.
  - rewrite Hx, IH. reflexivity.
Qed.

Lemma search_found (ds post : list ascii) :
  Forall (fun x => is_digit x = true) ds -> ds <> [] ->
  calories.search
    (list_ascii_of_string "#calories=" ++ ds ++ "#"%char :: post)
  = Some ds.
Proof.
  intros Hd Hn.
  assert (E : calories.match_here
                (list_ascii_of_string "#calories=" ++ ds ++ "#"%char :: post)
              = Some ds).
  { unfold calories.match_here. rewrite strip_prefix_app.
    rewrite (digits_run_digits ds post "#"%char Hd eq_refl).
    destruct ds; [contradiction | reflexivity]. }
  remember (list_ascii_of_string "#calories=" ++ ds ++ "#"%char :: post) as l.
  destruct l; cbn [calories.search]; rewrite E; reflexivity.
Qed.

Lemma str_int_nonneg_digits (k : Z) :
  0 <= k ->
  Forall (fun x => is_digit x = true) (list_ascii_of_string (str_int k))
  /\ list_ascii_of_string (str_int k) <> [].
Proof.
  intros H. rewrite str_int_chars.
  destruct (Z.ltb_spec k 0); [lia|]. simpl.
  split; [apply digits_are_digits | apply digits_nonempty].
Qed.

(** The search in a name of the form the encoder synthesizes. *)
Lemma search_synthesized (d t : string) (k : Z) :
  Forall (fun c => number_char c = true) (list_ascii_of_string d) ->
  Forall (fun c => number_char c = true) (list_ascii_of_string t) ->
  0 <= k ->
  calories.search
    (list_ascii_of_string
       ("#date=" ++ d ++ "000#" ++ "time=" ++ t ++ "000#" ++ "calories="
        ++ str_int k ++ "#" ++ "type=HeartRate#spmax=0#version=4.txt"))
  = Some (list_ascii_of_string (str_int k)).
Proof.
  intros Hd Ht Hk.
  assert (N : forall s, Forall (fun c => number_char c = true)
                          (list_ascii_of_string s) ->
              Forall (fun c => Ascii.eqb c "#" = false)
                (list_ascii_of_string s)).
  { intros s H. eapply Forall_impl; [|exact H].
    intros c Hc. apply (number_char_not_hash c Hc). }
  destruct (str_int_nonneg_digits k Hk) as [Kd Kn].
  cbn [append list_ascii_of_string].
  rewrite search_other_field by reflexivity.
  rewrite !search_cons_skip by reflexivity.
  rewrite chars_app, search_skip by (apply N; exact Hd).
  cbn [append list_ascii_of_string].
  rewrite !search_cons_skip by reflexivity.
  rewrite search_other_field by reflexivity.
  rewrite !search_cons_skip by reflexivity.
  rewrite chars_app, search_skip by (apply N; exact Ht).
  cbn [append list_ascii_of_string].
  rewrite !search_cons_skip by reflexivity.
  rewrite chars_app. cbn [list_ascii_of_string].
  exact (search_found _ _ Kd Kn).
Qed.

Lemma str_int_not_empty (k : Z) : String.eqb (str_int k) EmptyString = false.
Proof.
  apply String.eqb_neq. intros E.
  pose proof (digits_nonempty (Z.abs_N k)) as Hn.
  pose proof (str_int_chars k) as Hc. rewrite E in Hc. simpl in Hc.
  destruct (k <? 0); [discriminate Hc|]. simpl in Hc. congruence.
Qed.

Lemma after_lines_synthesized (st el : num) (k : Z) (d : HRTrackerData) :
  0 <= k ->
  let name :=
    ("#date=" ++ str_value (VNum st) ++ "000#" ++ "time="
     ++ str_value (VNum el) ++ "000#" ++ "calories=" ++ str_int k ++ "#"
     ++ "type=HeartRate#spmax=0#version=4.txt")%string in
  calories.search (list_ascii_of_string name)
  = Some (list_ascii_of_string (str_int k))
  /\ calories.after_lines (Some name) d = set_cals d (VStr (str_int k))
  /\ types.cals (calories.after_lines (Some name) d) = Ok (VStr (str_int k)).
Proof.
  intros Hk name.
  assert (S : calories.search (list_ascii_of_string name)
              = Some (list_ascii_of_string (str_int k))).
  { apply search_synthesized; [apply str_num_number .. | exact Hk]. }
  assert (A : calories.after_lines (Some name) d
              = set_cals d (VStr (str_int k))).
  { unfold calories.after_lines. rewrite S, string_of_list_ascii_of_string.
    reflexivity. }
  repeat split; [exact S | exact A |].
  rewrite A. unfold types.cals, set_cals, utils.deferred_value.
  cbn [types._cals truthy]. rewrite str_int_not_empty. reflexivity.
Qed.

(** X26. The calorie value is read back from a synthesized file name.  In
    a name of the form the encoder synthesizes, for any start and elapsed
    numbers and a calorie value [k >= 0], the search finds the decimal
    digits of [k]; the decoder's closing statements store them in the
    container as a string, which reads back even for [k = 0], and [int] of
    it is [k]. *)
Theorem synthesized_name_yields_calories (st el : num) (k : Z)
    (d : HRTrackerData) :
  0 <= k ->
  let name :=
    ("#date=" ++ str_value (VNum st) ++ "000#" ++ "time="
     ++ str_value (VNum el) ++ "000#" ++ "calories=" ++ str_int k ++ "#"
     ++ "type=HeartRate#spmax=0#version=4.txt")%string in
  calories.search (list_ascii_of_string name)
  = Some (list_ascii_of_string (str_int k))
  /\ calories.after_lines (Some name) d = set_cals d (VStr (str_int k))
  /\ types.cals (calories.after_lines (Some name) d) = Ok (VStr (str_int k))
  /\ int_of_value (VStr (str_int k)) = Ok k.
Proof.
  intros Hk name.
  destruct (after_lines_synthesized st el k d Hk) as (S & A & C).
  repeat split; [exact S | exact A | exact C | apply py_int_str_int].
Qed.

Lemma synthesized_name_yields_calories_witness :
  calories.search
    (list_ascii_of_string
       "#date=10000#time=60.5000#calories=0#type=HeartRate#spmax=0#version=4.txt")
  = Some (list_ascii_of_string "0").
Proof.
  refine (proj1 (synthesized_name_yields_calories (PInt 10)
                   (PFloat (121 # 2)) 0 (init None VNone) _)).
  discriminate.
Defined.

(** X27. A written file decodes to the workout it was written from.  For a
    stream of int timestamps of magnitude at most 2^53, whose first and
    last timestamps are non-zero, and a positive int calorie estimate [k],
    the encoder ends normally; the decode of its lines under its
    synthesized file name ends normally with the same Samples, and leaves a
    container whose calories read as the decimal string of [k]. *)
Theorem written_file_decodes_to_workout (t0 tn k h0 : Z) (r : list Datum) :
  t0 <> 0 -> tn <> 0 -> 0 < k ->
  Z.abs t0 <= 2 ^ 53 ->
  Forall (fun x => exists t, ts x = PInt t /\ Z.abs t <= 2 ^ 53) r ->
  ts (last r (mkDatum (PInt t0) h0)) = PInt tn ->
  let l := mkDatum (PInt t0) h0 :: r in
  exists e lines name w l',
    PnnSgtLogfile_iter
      (PnnSgtLogfile_init (Some (of_gen (mkGen l None) (VNum (PInt k)))))
    = Some (e, lines, None)
    /\ filename e = Ok (VStr name)
    /\ calories.decoded_pass (join lines) (Some name) = Some (w, l', None)
    /\ Forall2 same_sample l l'
    /\ types.cals (obj w) = Ok (VStr (str_int k)).
Proof.
  intros H0 Hn Hk _ Hb Hl l.
  assert (Hr : Forall int_timestamp r).
  { eapply Forall_impl; [|exact Hb]. intros x (t & Ht & _). exists t. exact Ht. }
  assert (Hk0 : k <> 0) by lia.
  pose proof (encoder_int_pass t0 tn k h0 r H0 Hn Hk0 Hl) as E.
  cbv zeta in E. fold l in E.
  assert (Hi : Forall int_timestamp l).
  { constructor; [exists t0; reflexivity | exact Hr]. }
  destruct (decode_int_lines l Hi) as (l' & D & S).
  eexists _, _, _, _, l'.
  split; [exact E|]. split; [reflexivity|].
  unfold calories.decoded_pass, _decode_pnn_sgt_file.
  rewrite readlines_join, D, pass_collect.
  split; [reflexivity|]. split; [exact S|].
  cbn [obj with_obj].
  apply (after_lines_synthesized (PInt t0) (PInt (tn - t0)) k).
  lia.
Qed.

Lemma written_file_decodes_to_workout_witness :
  exists e lines name w l',
    PnnSgtLogfile_iter
      (PnnSgtLogfile_init
         (Some (of_gen (mkGen [mkDatum (PInt 10) 100; mkDatum (PInt 70) 110]
                          None) (VNum (PInt 42)))))
    = Some (e, lines, None)
    /\ filename e = Ok (VStr name)
    /\ calories.decoded_pass (join lines) (Some name) = Some (w, l', None)
    /\ Forall2 same_sample [mkDatum (PInt 10) 100; mkDatum (PInt 70) 110] l'
    /\ types.cals (obj w) = Ok (VStr (str_int 42)).
Proof.
  refine (written_file_decodes_to_workout 10 70 42 100
            [mkDatum (PInt 70) 110] _ _ _ _ _ eq_refl);
    try discriminate; try reflexivity.
  repeat constructor. exists 70. split; [reflexivity | discriminate].
Defined.

(** ** Merging *)

Lemma chain_fresh (specs : list (list Datum * value)) :
  filters.chain
    (map (fun s => of_gen (mkGen (fst s) None) (snd s)) specs)
  = Some (mkGen (List.concat (map fst specs)) None).
Proof.
  induction specs as [|[l c] r IH]; [reflexivity|].
  cbn [map filters.chain fst snd List.concat].
  rewrite pass_collect, IH. reflexivity.
Qed.

(** X28. A merger hands out its inputs one after the other and drops
    their calories.  Over fresh generator-backed trackers whose streams
    end normally, one pass over the merged tracker ends normally with the
    concatenation of the streams in argument order, whatever the inputs'
    calorie estimates were the merged tracker's calories stay unavailable.
    When a tracker's stream raises, the pass hands out the Samples up to
    there and ends with that exception, and the trackers after it are never
    iterated. *)
Theorem merger_concatenates_and_drops_calories
    (specs : list (list Datum * value)) (l : list Datum) (e : Exn)
    (c : value) (post : list World) :
  let fresh := map (fun s => of_gen (mkGen (fst s) None) (snd s)) specs in
  let all := List.concat (map fst specs) in
  (exists m,
     filters.HRTrackerMerger fresh = Some m
     /\ filters.HRTrackerIdentityTransform collect m []
        = Some (traces.drained VNone all, all, None)
     /\ types.cals (obj (traces.drained VNone all))
        = Raise (LookupError "cals not ready"))
  /\ (exists m w,
        filters.HRTrackerMerger
          (fresh ++ of_gen (mkGen l (Some e)) c :: post) = Some m
        /\ filters.HRTrackerIdentityTransform collect m []
           = Some (w, all ++ l, Some e)).
Proof.
  intros fresh all. split.
  - exists (of_gen (mkGen all None) VNone).
    unfold filters.HRTrackerMerger, filters.HRTrackerIdentityTransform.
    subst fresh all. rewrite chain_fresh, pass_collect.
    repeat split; reflexivity.
  - assert (E : filters.chain (fresh ++ of_gen (mkGen l (Some e)) c :: post)
                = Some (mkGen (all ++ l) (Some e))).
    { subst fresh all. induction specs as [|[l0 c0] r IH].
      - cbn [map app filters.chain List.concat]. rewrite pass_collect.
        reflexivity.
      - cbn [map app filters.chain fst snd List.concat].
        rewrite pass_collect, IH. cbn [g_items g_fin].
        rewrite app_assoc. reflexivity. }
    unfold filters.HRTrackerMerger, filters.HRTrackerIdentityTransform.
    rewrite E. eexists _, _. split; [reflexivity|].
    rewrite pass_collect. reflexivity.
Qed.
